(** * ETF grid-trading analyzer: suitability scoring and optimal grid bands

    Shallow embedding of [backend/services/etf_analyzer.py] (class
    [ETFAnalyzer]) and the properties of its scoring pipeline.

    Numbers.  A Python [float] is embedded as a rational [Q] and an [int]
    as [Z].  Every finite float is a rational and comparisons are exact, so
    the branching of the code is followed literally; the arithmetic is the
    exact one (no rounding), and decimal literals such as [0.02] stand for
    the decimal fraction.  Non-finite floats (inf, nan) are outside the
    embedding: where numpy would produce one, the embedded function answers
    [None].

    Dictionaries.  The dictionaries read with [d.get(key, default)] are
    records of optional fields ([None]: the key is absent); the dictionaries
    the code builds are plain records.  Fixed messages are kept as strings;
    a message built by an f-string is a constructor that carries the values
    interpolated into it. *)

From Stdlib Require Import QArith ZArith String List Bool Lia Lqa Qround Qabs.
Import ListNotations.

Open Scope Q_scope.

(** ** Python built-ins used by the analyzer *)

Module Py.

(** [x < y] on floats. *)
Definition ltb (x y : Q) : bool := negb (Qle_bool y x).

(** [x <= y] on floats. *)
Definition leb (x y : Q) : bool := Qle_bool x y.

(** [max(a, b)]: the first argument unless the second is greater. *)
Definition max (a b : Q) : Q := if ltb a b then b else a.

(** [min(a, b)]: the first argument unless the second is smaller. *)
Definition min (a b : Q) : Q := if ltb b a then b else a.

(** [int(x)]: truncation toward zero. *)
Definition int (x : Q) : Z := Z.quot (Qnum x) (Zpos (Qden x)).

(** [x / y] on Python floats; [None] is [ZeroDivisionError]. *)
Definition div (x y : Q) : option Q :=
  if Qeq_bool y 0 then None else Some (x / y).

(** [d.get(key, default)] on an optional field. *)
Definition get {A : Type} (field : option A) (default : A) : A :=
  match field with Some v => v | None => default end.

End Py.

(** ** Optimal price range ([_calculate_optimal_price_range]) *)

(** The [calculation_basis] text: either the three interpolated factors or
    the fixed text of the default record. *)
Inductive Basis : Type :=
| BasisFormula (avg_amplitude frequency_multiplier safety_margin : Q)
| BasisDefault.

Module Range.
Record t : Type := mk {
  base_range : Q;
  min_range : Q;
  max_range : Q;
  calculation_basis : Basis
}.
End Range.

(** The record of the [except] branch.  No operation of the [try] body
    raises on float arguments, so the embedding below never reaches it. *)
Definition default_price_range : Range.t :=
  Range.mk 0.15 0.10 0.25 BasisDefault.

Definition _calculate_optimal_price_range
    (avg_amplitude target_triggers : Q) : Range.t :=
  let frequency_multiplier := target_triggers * 1.2 in
  let safety_margin := 1.5 in
  let base_range := avg_amplitude * frequency_multiplier * safety_margin in
  let min_range := Py.max 0.02 (base_range * 0.8) in
  let max_range := Py.min 0.50 (base_range * 1.3) in
  let min_range :=
    if Py.leb max_range min_range then max_range * 0.8 else min_range in
  Range.mk base_range min_range max_range
           (BasisFormula avg_amplitude frequency_multiplier safety_margin).

(** ** Optimal grid count ([_calculate_optimal_grid_count]) *)

Notation "x <- e ;; k" :=
  (match e with Some x => k | None => None end)
  (at level 61, e at next level, right associativity).

Module Count.
Record t : Type := mk {
  base_count : Z;
  min_count : Z;
  max_count : Z;
  frequency_type : string
}.
End Count.

(** The dictionary [target_daily_frequencies]. *)
Definition target_daily_frequencies (user_frequency : string) : option Q :=
  if (user_frequency =? "high")%string then Some 5.5
  else if (user_frequency =? "medium")%string then Some 2.5
  else if (user_frequency =? "low")%string then Some 1.0
  else None.

(** [int(base_range / (avg_amplitude / target_triggers))]; [None] when one
    of the two divisions raises [ZeroDivisionError]. *)
Definition grid_base_count (target_triggers base_range avg_amplitude : Q)
  : option Z :=
  per_trigger <- Py.div avg_amplitude target_triggers ;;
  ratio <- Py.div base_range per_trigger ;;
  Some (Py.int ratio).

(** The [try] body of [_calculate_optimal_grid_count]; [None] when it
    raises. *)
Definition grid_count_try (frequency_type : string)
    (target_triggers base_range avg_amplitude : Q) : option Count.t :=
  bounds <-
    (if (frequency_type =? "high")%string then
       base_count <- grid_base_count target_triggers base_range avg_amplitude ;;
       Some (base_count, Z.max 12 (base_count - 5), Z.min 30 (base_count + 8))
     else if (frequency_type =? "medium")%string then
       base_count <- grid_base_count target_triggers base_range avg_amplitude ;;
       Some (base_count, Z.max 6 (base_count - 3), Z.min 18 (base_count + 5))
     else
       base_count <- grid_base_count target_triggers base_range avg_amplitude ;;
       Some (base_count, Z.max 3 (base_count - 2), Z.min 10 (base_count + 3))) ;;
  let '(base_count, min_count, max_count) := bounds in
  let max_count :=
    if (min_count >=? max_count)%Z then (min_count + 3)%Z else max_count in
  Some (Count.mk base_count min_count max_count frequency_type).

(** The dictionary [default_ranges] of the [except] branch, as
    [(min_count, max_count)]. *)
Definition default_ranges (frequency_type : string) : option (Z * Z) :=
  if (frequency_type =? "high")%string then Some (12, 25)%Z
  else if (frequency_type =? "medium")%string then Some (6, 15)%Z
  else if (frequency_type =? "low")%string then Some (3, 8)%Z
  else None.

(** The [except] branch of [_calculate_optimal_grid_count]. *)
Definition grid_count_default (frequency_type : string) : Count.t :=
  let default := Py.get (default_ranges frequency_type) (6, 15)%Z in
  Count.mk ((fst default + snd default) / 2)%Z (fst default) (snd default)
           frequency_type.

Definition _calculate_optimal_grid_count (frequency_type : string)
    (target_triggers base_range avg_amplitude : Q) : Count.t :=
  match grid_count_try frequency_type target_triggers base_range
                       avg_amplitude with
  | Some band => band
  | None => grid_count_default frequency_type
  end.

(** ** Scoring of the actual parameters *)

(** The ladder shared by both scorers: relative deviation from the centre
    of the band to points. *)
Definition deviation_points (deviation : Q) : Z :=
  if Py.ltb deviation 0.2 then 4
  else if Py.ltb deviation 0.4 then 3
  else if Py.ltb deviation 0.6 then 2
  else if Py.ltb deviation 1.0 then 1
  else 0.

(** [_score_price_range]: the bare [except] answers 2 when the division by
    the centre raises. *)
Definition _score_price_range (actual_range : Q) (optimal_range : Range.t)
  : Z :=
  let min_range := Range.min_range optimal_range in
  let max_range := Range.max_range optimal_range in
  if Py.leb min_range actual_range && Py.leb actual_range max_range then 5
  else
    let optimal_center := (min_range + max_range) / 2 in
    match Py.div (Qabs (actual_range - optimal_center)) optimal_center with
    | Some deviation => deviation_points deviation
    | None => 2
    end.

(** [_score_grid_count]: the counts are integers, the centre and the
    deviation are floats. *)
Definition _score_grid_count (actual_count : Z) (optimal_count : Count.t)
  : Z :=
  let min_count := Count.min_count optimal_count in
  let max_count := Count.max_count optimal_count in
  if ((min_count <=? actual_count) && (actual_count <=? max_count))%Z then 5
  else
    let optimal_center := inject_Z (min_count + max_count) / 2 in
    match Py.div (Qabs (inject_Z actual_count - optimal_center))
                 optimal_center with
    | Some deviation => deviation_points deviation
    | None => 2
    end.

(** ** Grid-parameter evaluation
    ([_evaluate_grid_params_with_frequency_matching]) *)

(** Entries of a [warnings] list.  [Text] holds a fixed message; the other
    constructors are the f-string messages with their interpolated values:
    - [RangeTooSmall a lo hi]: "价格区间过小(a)，建议调整至lo-hi"
    - [RangeTooLarge a lo hi]: "价格区间过大(a)，建议调整至lo-hi"
    - [CountTooFew n lo hi]: "网格数量过少(n个)，建议调整至lo-hi个"
    - [CountTooMany n lo hi]: "网格数量过多(n个)，建议调整至lo-hi个"
    - [FrequencyMismatch m]:
      "当前参数预计触发频率与期望不符，匹配度仅m" *)
Inductive Warning : Type :=
| Text (message : string)
| RangeTooSmall (actual min_range max_range : Q)
| RangeTooLarge (actual min_range max_range : Q)
| CountTooFew (actual min_count max_count : Z)
| CountTooMany (actual min_count max_count : Z)
| FrequencyMismatch (match_score : Q).

Module GridParams.
Record t : Type := mk {
  price_range_ratio : option Q;
  grid_count : option Z;
  frequency_match_score : option Q;
  predicted_daily_triggers : option Q
}.
End GridParams.

(** The dictionary read by [evaluate_adaptability] and written by
    [analyze_etf_characteristics]. *)
Module Distribution.
Record t : Type := mk {
  q25 : Q;
  q50 : Q;
  q75 : Q;
  iqr : Q;
  skewness : Q;
  kurtosis : Q;
  distribution_type : string
}.
End Distribution.

Module Analysis.
Record t : Type := mk {
  error : option string;
  current_price : option Q;
  avg_price : option Q;
  price_std : option Q;
  price_range : option Q;
  volatility : option Q;
  volatility_level : option string;
  avg_amplitude : option Q;
  max_amplitude : option Q;
  min_amplitude : option Q;
  amplitude_std : option Q;
  amplitude_level : option string;
  avg_volume : option Q;
  volume_std : option Q;
  liquidity_score : option Q;
  trend_slope : option Q;
  trend_direction : option string;
  oscillation_score : option Q;
  market_character : option string;
  price_distribution : option Distribution.t;
  data_points : option nat;
  start_date : option Z;
  end_date : option Z;
  analysis_date : option string
}.
End Analysis.

(** The nested dictionaries [range_evaluation] and [count_evaluation]. *)
Module AxisEval.
Record t (A B : Type) : Type := mk {
  score : Z;
  actual : A;
  optimal : B;
  status : string
}.
Arguments mk {A B} _ _ _ _.
Arguments score {A B} _.
Arguments actual {A B} _.
Arguments optimal {A B} _.
Arguments status {A B} _.
End AxisEval.

Module FrequencyMatching.
Record t : Type := mk {
  target_triggers : Q;
  predicted_triggers : Q;
  match_score : Q;
  bonus_score : Z
}.
End FrequencyMatching.

Module GridEval.
Record t : Type := mk {
  total_score : Z;
  range_evaluation : AxisEval.t Q Range.t;
  count_evaluation : AxisEval.t Z Count.t;
  frequency_matching : FrequencyMatching.t;
  warnings : list Warning;
  suggestions : list Warning
}.
End GridEval.

Definition axis_status (score : Z) : string :=
  if (score >=? 4)%Z then "good" else "needs_adjustment".

(** Step 6 of the evaluation: the bonus for the frequency match. *)
Definition frequency_bonus (frequency_match_score : Q) : Z :=
  if Py.ltb 0.8 frequency_match_score then 2
  else if Py.ltb 0.6 frequency_match_score then 1
  else 0.

(** Step 7 of the evaluation: the warnings, in the order they are
    appended. *)
Definition grid_warnings (range_score count_score : Z)
    (actual_range : Q) (actual_count : Z) (frequency_match_score : Q)
    (optimal_range : Range.t) (optimal_grid_count : Count.t)
  : list Warning :=
  (if (range_score <? 3)%Z then
     if Py.ltb actual_range (Range.min_range optimal_range)
     then [RangeTooSmall actual_range (Range.min_range optimal_range)
                         (Range.max_range optimal_range)]
     else [RangeTooLarge actual_range (Range.min_range optimal_range)
                         (Range.max_range optimal_range)]
   else [])
  ++ (if (count_score <? 3)%Z then
        if (actual_count <? Count.min_count optimal_grid_count)%Z
        then [CountTooFew actual_count (Count.min_count optimal_grid_count)
                          (Count.max_count optimal_grid_count)]
        else [CountTooMany actual_count (Count.min_count optimal_grid_count)
                           (Count.max_count optimal_grid_count)]
      else [])
  ++ (if Py.ltb frequency_match_score 0.6
      then [FrequencyMismatch frequency_match_score] else []).

(** The [try] body.  On a well-typed analysis result and grid parameters
    none of its operations raises (the helpers catch their own failures),
    so the [except] branch, which answers [total_score = 0] with one
    failure warning, is not part of the embedding. *)
Definition _evaluate_grid_params_with_frequency_matching
    (analysis_result : Analysis.t) (grid_params : GridParams.t)
    (user_frequency : string) : GridEval.t :=
  let target_triggers :=
    Py.get (target_daily_frequencies user_frequency) 2.5 in
  let avg_amplitude := Py.get (Analysis.avg_amplitude analysis_result) 0.02 in
  let optimal_range :=
    _calculate_optimal_price_range avg_amplitude target_triggers in
  let optimal_grid_count :=
    _calculate_optimal_grid_count user_frequency target_triggers
      (Range.base_range optimal_range) avg_amplitude in
  let actual_range := Py.get (GridParams.price_range_ratio grid_params) 0 in
  let actual_count := Py.get (GridParams.grid_count grid_params) 0%Z in
  let range_score := _score_price_range actual_range optimal_range in
  let count_score := _score_grid_count actual_count optimal_grid_count in
  let frequency_match_score :=
    Py.get (GridParams.frequency_match_score grid_params) 0 in
  let bonus_score := frequency_bonus frequency_match_score in
  let total_score := Z.min 10 (range_score + count_score + bonus_score) in
  let warnings :=
    grid_warnings range_score count_score actual_range actual_count
                  frequency_match_score optimal_range optimal_grid_count in
  GridEval.mk total_score
    (AxisEval.mk range_score actual_range optimal_range
                 (axis_status range_score))
    (AxisEval.mk count_score actual_count optimal_grid_count
                 (axis_status count_score))
    (FrequencyMatching.mk target_triggers
       (Py.get (GridParams.predicted_daily_triggers grid_params) 0)
       frequency_match_score bonus_score)
    warnings [].

(** ** Suitability evaluation ([evaluate_adaptability]) *)

Module Dimensions.
Record t : Type := mk {
  amplitude_score : Z;
  volatility_score : Z;
  market_score : Z;
  liquidity_score : Z;
  grid_params_score : Z
}.
Definition zero : t := mk 0 0 0 0 0.
Definition set_amplitude (v : Z) (d : t) : t :=
  mk v (volatility_score d) (market_score d) (liquidity_score d)
     (grid_params_score d).
Definition set_volatility (v : Z) (d : t) : t :=
  mk (amplitude_score d) v (market_score d) (liquidity_score d)
     (grid_params_score d).
Definition set_market (v : Z) (d : t) : t :=
  mk (amplitude_score d) (volatility_score d) v (liquidity_score d)
     (grid_params_score d).
Definition set_liquidity (v : Z) (d : t) : t :=
  mk (amplitude_score d) (volatility_score d) (market_score d) v
     (grid_params_score d).
Definition set_grid_params (v : Z) (d : t) : t :=
  mk (amplitude_score d) (volatility_score d) (market_score d)
     (liquidity_score d) v.
End Dimensions.

(** The lines of the recommendation text ([_generate_recommendation]):
    the headline ("✅ 该ETF适合进行网格交易" or
    "❌ 该ETF不适合进行网格交易"), the joined reasons ("📋 主要原因"),
    the joined warnings ("⚠️  注意事项" for a suitable fund, "⚠️  其他风险"
    otherwise) and the score ("📊 综合评分：score/100"). *)
Inductive Line : Type :=
| Headline (is_suitable : bool)
| MainReasons (reasons : list string)
| Notices (warnings : list Warning)
| OtherRisks (warnings : list Warning)
| ScoreLine (score : Z).

Definition nonempty {A : Type} (l : list A) : bool :=
  match l with [] => false | _ :: _ => true end.

Definition _generate_recommendation (is_suitable : bool) (score : Z)
    (reasons : list string) (warnings : list Warning) : list Line :=
  (if is_suitable then
     Headline true :: (if nonempty warnings then [Notices warnings] else [])
   else
     Headline false
       :: (if nonempty reasons then [MainReasons reasons] else [])
       ++ (if nonempty warnings then [OtherRisks warnings] else []))
  ++ [ScoreLine score].

(** The local variables [score], [reasons], [warnings] and
    [dimension_scores], threaded through the five assessments. *)
Module Tally.
Record t : Type := mk {
  score : Z;
  reasons : list string;
  warnings : list Warning;
  dimension_scores : Dimensions.t
}.
Definition init : t := mk 0 [] [] Dimensions.zero.
End Tally.

(** 1. Amplitude (30 points). *)
Definition assess_amplitude (analysis_result : Analysis.t) (s : Tally.t)
  : Tally.t :=
  let avg_amplitude := Py.get (Analysis.avg_amplitude analysis_result) 0 in
  if Py.leb 2.0 avg_amplitude then
    Tally.mk (Tally.score s + 30) (Tally.reasons s) (Tally.warnings s)
             (Dimensions.set_amplitude 30 (Tally.dimension_scores s))
  else if Py.leb 1.5 avg_amplitude then
    Tally.mk (Tally.score s + 20) (Tally.reasons s)
             (Tally.warnings s
                ++ [Text "日均振幅偏低，可能影响网格收益"])
             (Dimensions.set_amplitude 20 (Tally.dimension_scores s))
  else
    Tally.mk (Tally.score s)
             (Tally.reasons s ++ ["日均振幅过小，难以覆盖交易成本"%string])
             (Tally.warnings s)
             (Dimensions.set_amplitude 0 (Tally.dimension_scores s)).

(** 2. Volatility (25 points). *)
Definition assess_volatility (analysis_result : Analysis.t) (s : Tally.t)
  : Tally.t :=
  let volatility := Py.get (Analysis.volatility analysis_result) 0 in
  if Py.leb 15 volatility && Py.leb volatility 40 then
    Tally.mk (Tally.score s + 25) (Tally.reasons s) (Tally.warnings s)
             (Dimensions.set_volatility 25 (Tally.dimension_scores s))
  else if Py.ltb volatility 15 then
    Tally.mk (Tally.score s + 15) (Tally.reasons s)
             (Tally.warnings s ++ [Text "波动率偏低，网格交易机会较少"])
             (Dimensions.set_volatility 15 (Tally.dimension_scores s))
  else
    Tally.mk (Tally.score s + 10) (Tally.reasons s)
             (Tally.warnings s ++ [Text "波动率过高，风险较大"])
             (Dimensions.set_volatility 10 (Tally.dimension_scores s)).

(** 3. Market character (20 points). *)
Definition assess_market (analysis_result : Analysis.t) (s : Tally.t)
  : Tally.t :=
  let market_character :=
    Py.get (Analysis.market_character analysis_result) ""%string in
  if (market_character =? "震荡")%string then
    Tally.mk (Tally.score s + 20) (Tally.reasons s) (Tally.warnings s)
             (Dimensions.set_market 20 (Tally.dimension_scores s))
  else if (market_character =? "弱趋势")%string then
    Tally.mk (Tally.score s + 15) (Tally.reasons s) (Tally.warnings s)
             (Dimensions.set_market 15 (Tally.dimension_scores s))
  else if (market_character =? "强趋势")%string then
    Tally.mk (Tally.score s + 5)
             (Tally.reasons s ++ ["市场趋势性较强，不适合网格交易"%string])
             (Tally.warnings s)
             (Dimensions.set_market 5 (Tally.dimension_scores s))
  else
    Tally.mk (Tally.score s) (Tally.reasons s) (Tally.warnings s)
             (Dimensions.set_market 0 (Tally.dimension_scores s)).

(** 4. Liquidity (15 points). *)
Definition assess_liquidity (analysis_result : Analysis.t) (s : Tally.t)
  : Tally.t :=
  let liquidity_score :=
    Py.get (Analysis.liquidity_score analysis_result) 0 in
  let avg_volume := Py.get (Analysis.avg_volume analysis_result) 0 in
  if Py.leb 0.7 liquidity_score && Py.leb 1000000 avg_volume then
    Tally.mk (Tally.score s + 15) (Tally.reasons s) (Tally.warnings s)
             (Dimensions.set_liquidity 15 (Tally.dimension_scores s))
  else if Py.leb 0.5 liquidity_score && Py.leb 500000 avg_volume then
    Tally.mk (Tally.score s + 10) (Tally.reasons s)
             (Tally.warnings s
                ++ [Text "流动性一般，需注意交易冲击成本"])
             (Dimensions.set_liquidity 10 (Tally.dimension_scores s))
  else
    Tally.mk (Tally.score s)
             (Tally.reasons s ++ ["流动性不足，可能存在交易风险"%string])
             (Tally.warnings s)
             (Dimensions.set_liquidity 0 (Tally.dimension_scores s)).

(** 5. Grid parameters (10 points): the score is always added, the
    warnings only below 8 points. *)
Definition assess_grid_params (grid_params_evaluation : GridEval.t)
    (s : Tally.t) : Tally.t :=
  let total_score := GridEval.total_score grid_params_evaluation in
  Tally.mk (Tally.score s + total_score) (Tally.reasons s)
           (if (total_score <? 8)%Z
            then Tally.warnings s ++ GridEval.warnings grid_params_evaluation
            else Tally.warnings s)
           (Dimensions.set_grid_params total_score
              (Tally.dimension_scores s)).

Module Verdict.
Record t : Type := mk {
  is_suitable : bool;
  score : Z;
  max_score : Z;
  dimension_scores : Dimensions.t;
  grid_params_details : GridEval.t;
  reasons : list string;
  warnings : list Warning;
  recommendation : list Line
}.
End Verdict.

(** The two dictionaries [evaluate_adaptability] returns: the short one for
    an analysis result that carries an error, the full verdict otherwise.
    (The dictionary of the outer [except] is not reached on well-typed
    arguments.) *)
Inductive Adaptability : Type :=
| Rejected (is_suitable : bool) (reason : string) (score : Z)
           (dimension_scores : Dimensions.t)
| Evaluated (verdict : Verdict.t).

Definition evaluate_adaptability (analysis_result : Analysis.t)
    (grid_params : GridParams.t) (user_frequency : string) : Adaptability :=
  match Analysis.error analysis_result with
  | Some error => Rejected false error 0 Dimensions.zero
  | None =>
      let s := assess_amplitude analysis_result Tally.init in
      let s := assess_volatility analysis_result s in
      let s := assess_market analysis_result s in
      let s := assess_liquidity analysis_result s in
      let grid_params_evaluation :=
        _evaluate_grid_params_with_frequency_matching
          analysis_result grid_params user_frequency in
      let s := assess_grid_params grid_params_evaluation s in
      let score := Tally.score s in
      let reasons := Tally.reasons s in
      let warnings := Tally.warnings s in
      let is_suitable := (score >=? 60)%Z && (length reasons =? 0)%nat in
      Evaluated
        (Verdict.mk is_suitable score 100 (Tally.dimension_scores s)
           grid_params_evaluation reasons warnings
           (_generate_recommendation is_suitable score reasons warnings))
  end.

Definition adaptability_is_suitable (r : Adaptability) : bool :=
  match r with
  | Rejected is_suitable _ _ _ => is_suitable
  | Evaluated v => Verdict.is_suitable v
  end.

Definition adaptability_score (r : Adaptability) : Z :=
  match r with
  | Rejected _ _ score _ => score
  | Evaluated v => Verdict.score v
  end.

(** ** Classifiers *)

Definition _determine_trend_direction (slope : Q) : string :=
  if Py.ltb 0.01 slope then "上涨趋势"
  else if Py.ltb slope (-0.01) then "下跌趋势"
  else "震荡".

Definition _classify_volatility (volatility : Q) : string :=
  if Py.ltb volatility 10 then "低波动"
  else if Py.ltb volatility 25 then "中等波动"
  else if Py.ltb volatility 40 then "高波动"
  else "极高波动".

Definition _classify_amplitude (avg_amplitude : Q) : string :=
  if Py.ltb avg_amplitude 1.0 then "极小振幅"
  else if Py.ltb avg_amplitude 1.5 then "小振幅"
  else if Py.ltb avg_amplitude 2.5 then "中等振幅"
  else if Py.ltb avg_amplitude 4.0 then "大振幅"
  else "极大振幅".

(** The second argument is not used by the code. *)
Definition _classify_market_character (oscillation_score : Q)
    (trend_direction : string) : string :=
  if Py.ltb 0.6 oscillation_score then "震荡"
  else if Py.ltb 0.3 oscillation_score then "弱趋势"
  else "强趋势".

Definition _classify_distribution (skewness kurtosis : Q) : string :=
  if Py.ltb (Qabs skewness) 0.5 && Py.ltb (Qabs kurtosis) 0.5
  then "正态分布"
  else if Py.ltb 0.5 skewness then "右偏分布"
  else if Py.ltb skewness (-0.5) then "左偏分布"
  else "其他分布".

(** ** Statistics *)

(** The functions of numpy, scipy and datetime that the analyzer calls and
    that have no rational definition, or none worth fixing here. *)
Module Lib.
Record t : Type := mk {
  (** [np.sqrt], also the square root inside [np.std]. *)
  sqrt : Q -> Q;
  (** Slope of [np.polyfit(np.arange(len(prices)), prices, 1)]; [None]
      when it raises. *)
  polyfit_slope : list Q -> option Q;
  (** [np.percentile(prices, q)]. *)
  percentile : list Q -> Q -> Q;
  (** [scipy.stats.skew] and [scipy.stats.kurtosis]; [None] when the import
      or the call raises. *)
  skew : list Q -> option Q;
  kurtosis : list Q -> option Q;
  (** [datetime.now().isoformat()]. *)
  now_isoformat : string
}.
End Lib.

Definition np_sum (xs : list Q) : Q := fold_right Qplus 0 xs.

(** [np.mean] (on an empty array numpy answers nan; here [0 / 0 = 0], and
    every use below either divides by the mean through [np_div] or runs on
    at least 20 points). *)
Definition np_mean (xs : list Q) : Q :=
  np_sum xs / inject_Z (Z.of_nat (length xs)).

(** [np.std]: the root of the mean squared deviation (population form). *)
Definition np_std (lib : Lib.t) (xs : list Q) : Q :=
  let m := np_mean xs in
  Lib.sqrt lib (np_mean (map (fun x => (x - m) * (x - m)) xs)).

(** [np.max] and [np.min], called on non-empty arrays only. *)
Definition np_max (xs : list Q) : Q :=
  match xs with [] => 0 | x :: rest => fold_left Py.max rest x end.

Definition np_min (xs : list Q) : Q :=
  match xs with [] => 0 | x :: rest => fold_left Py.min rest x end.

(** Division of numpy floats: it does not raise; [None] stands for the inf
    or nan of a zero divisor. *)
Definition np_div (x y : Q) : option Q :=
  if Qeq_bool y 0 then None else Some (x / y).

(** [np.diff(prices) / prices[:-1]], the simple daily returns. *)
Fixpoint daily_returns (prices : list Q) : option (list Q) :=
  match prices with
  | previous :: ((current :: _) as rest) =>
      r <- np_div (current - previous) previous ;;
      rs <- daily_returns rest ;;
      Some (r :: rs)
  | _ => Some []
  end.

Definition _calculate_trend_slope (lib : Lib.t) (prices : list Q) : Q :=
  match Lib.polyfit_slope lib prices with
  | Some slope => slope
  | None => 0.0
  end.

(** [_calculate_oscillation_score].  Nothing in the [try] body raises on
    numeric arrays (numpy divides by zero silently), so the [except] value
    [0.0] does not appear. *)
Definition _calculate_oscillation_score (lib : Lib.t)
    (prices amplitudes : list Q) : option Q :=
  price_cv <- np_div (np_std lib prices) (np_mean prices) ;;
  amplitude_cv <- np_div (np_std lib amplitudes) (np_mean amplitudes) ;;
  let oscillation_score :=
    Py.min 1.0 ((price_cv * 10 + amplitude_cv) / 2) in
  Some oscillation_score.

(** [_calculate_liquidity_score]; same remark on the [except] value. *)
Definition _calculate_liquidity_score (lib : Lib.t) (volumes : list Q)
    (avg_volume : Q) : option Q :=
  volume_cv <- np_div (np_std lib volumes) (np_mean volumes) ;;
  let volume_adequacy := Py.min 1.0 (avg_volume / 1000000) in
  let liquidity_score :=
    (1 - Py.min 1.0 volume_cv) * 0.5 + volume_adequacy * 0.5 in
  Some liquidity_score.

Definition _analyze_price_distribution (lib : Lib.t) (prices : list Q)
  : Distribution.t :=
  let q25 := Lib.percentile lib prices 25 in
  let q50 := Lib.percentile lib prices 50 in
  let q75 := Lib.percentile lib prices 75 in
  match Lib.skew lib prices, Lib.kurtosis lib prices with
  | Some skewness, Some kurtosis =>
      Distribution.mk q25 q50 q75 (q75 - q25) skewness kurtosis
        (_classify_distribution skewness kurtosis)
  | _, _ => Distribution.mk 0.0 0.0 0.0 0.0 0.0 0.0 "无法分析"
  end.

(** ** Characteristic analysis ([analyze_etf_characteristics]) *)

(** A row of the historical data frame; the trade date is a day number. *)
Module Bar.
Record t : Type := mk {
  trade_date : Z;
  close : Q;
  vol : Q;
  amplitude : Q
}.
End Bar.

Definition DataFrame : Type := list Bar.t.

(** The record [{'error': ..., 'data_points': ...}]. *)
Definition insufficient_data (data_points : nat) : Analysis.t :=
  Analysis.mk (Some "数据不足，无法进行分析"%string)
    None None None None None None None None None None None None None None
    None None None None None (Some data_points) None None None.

Definition z_max (xs : list Z) : Z :=
  match xs with [] => 0%Z | x :: rest => fold_left Z.max rest x end.

Definition z_min (xs : list Z) : Z :=
  match xs with [] => 0%Z | x :: rest => fold_left Z.min rest x end.

(** The outer [try] is not represented: on a frame of numeric columns no
    statement raises.  [None]: a statistic is inf or nan. *)
Definition analyze_etf_characteristics (lib : Lib.t)
    (historical_data : DataFrame) : option Analysis.t :=
  if (length historical_data =? 0)%nat || (length historical_data <? 20)%nat
  then Some (insufficient_data (length historical_data))
  else
    let close_prices := map Bar.close historical_data in
    let volumes := map Bar.vol historical_data in
    let amplitudes := map Bar.amplitude historical_data in
    let current_price := last close_prices 0 in
    let avg_price := np_mean close_prices in
    let price_std := np_std lib close_prices in
    let price_range := np_max close_prices - np_min close_prices in
    returns <- daily_returns close_prices ;;
    let volatility := np_std lib returns * Lib.sqrt lib 252 * 100 in
    let avg_amplitude := np_mean amplitudes in
    let max_amplitude := np_max amplitudes in
    let min_amplitude := np_min amplitudes in
    let amplitude_std := np_std lib amplitudes in
    let avg_volume := np_mean volumes in
    let volume_std := np_std lib volumes in
    let trend_slope := _calculate_trend_slope lib close_prices in
    let trend_direction := _determine_trend_direction trend_slope in
    oscillation_score <-
      _calculate_oscillation_score lib close_prices amplitudes ;;
    liquidity_score <- _calculate_liquidity_score lib volumes avg_volume ;;
    let price_distribution := _analyze_price_distribution lib close_prices in
    let start_date := z_min (map Bar.trade_date historical_data) in
    let end_date := z_max (map Bar.trade_date historical_data) in
    Some (Analysis.mk None
            (Some current_price) (Some avg_price) (Some price_std)
            (Some price_range)
            (Some volatility) (Some (_classify_volatility volatility))
            (Some avg_amplitude) (Some max_amplitude) (Some min_amplitude)
            (Some amplitude_std) (Some (_classify_amplitude avg_amplitude))
            (Some avg_volume) (Some volume_std) (Some liquidity_score)
            (Some trend_slope) (Some trend_direction)
            (Some oscillation_score)
            (Some (_classify_market_character oscillation_score
                     trend_direction))
            (Some price_distribution)
            (Some (length historical_data))
            (Some start_date) (Some end_date)
            (Some (Lib.now_isoformat lib))).

(** ** A concrete library, to run the analyzer *)

(** Square root to six decimals, by the integer square root. *)
Definition sample_sqrt (x : Q) : Q :=
  let r := Qred x in
  Z.sqrt (Qnum r * Zpos (Qden r) * 10 ^ 12) # (Qden r * 10 ^ 6).

(** Least-squares slope against the indices [0, 1, ...]. *)
Definition sample_polyfit_slope (prices : list Q) : option Q :=
  let xs := map (fun i => inject_Z (Z.of_nat i)) (seq 0 (length prices)) in
  let x_mean := np_mean xs in
  let y_mean := np_mean prices in
  let sxy :=
    np_sum (map (fun p => (fst p - x_mean) * (snd p - y_mean))
                (combine xs prices)) in
  let sxx := np_sum (map (fun x => (x - x_mean) * (x - x_mean)) xs) in
  Py.div sxy sxx.

Fixpoint insert_sorted (x : Q) (sorted : list Q) : list Q :=
  match sorted with
  | [] => [x]
  | y :: rest =>
      if Py.leb x y then x :: sorted else y :: insert_sorted x rest
  end.

(** Percentile by linear interpolation between the two nearest ranks. *)
Definition sample_percentile (xs : list Q) (q : Q) : Q :=
  let sorted := fold_right insert_sorted [] xs in
  let position := q / 100 * inject_Z (Z.of_nat (length xs) - 1) in
  let rank := Qfloor position in
  let lower := nth (Z.to_nat rank) sorted 0 in
  let upper := nth (Z.to_nat (rank + 1)) sorted lower in
  lower + (position - inject_Z rank) * (upper - lower).

(** An installation without scipy: the import inside
    [_analyze_price_distribution] raises. *)
Definition sample_lib : Lib.t :=
  Lib.mk sample_sqrt sample_polyfit_slope sample_percentile
         (fun _ => None) (fun _ => None) "2024-01-01T00:00:00".

(** ** Fund information ([get_etf_info]) *)

(** A value of the dictionary the data client returns: text or number. *)
Inductive Value : Type :=
| Str (text : string)
| Num (number : Q).

(** A dictionary with text keys, as a list of bindings; the first binding
    of a key is the one that counts. *)
Definition Dict : Type := list (string * Value).

Fixpoint dict_get (d : Dict) (key : string) (default : Value) : Value :=
  match d with
  | [] => default
  | (k, v) :: rest =>
      if (k =? key)%string then v else dict_get rest key default
  end.

(** What [tushare_client.get_etf_basic_info] does: it raises, answers
    [None], or answers a dictionary. *)
Inductive ClientReply : Type :=
| ClientRaises
| ClientNone
| ClientDict (basic_info : Dict).

Module EtfInfo.
Record t : Type := mk {
  code : string;
  name : Value;
  management : Value;
  current_price : Value;
  pre_close : Value;
  pct_change : Value;
  volume : Value;
  amount : Value;
  trade_date : Value;
  found_date : Value;
  list_date : Value;
  data_age_days : Value
}.
End EtfInfo.

(** [get_etf_info], given the reply of the client for [etf_code].
    [not basic_info] holds for [None] and for the empty dictionary. *)
Definition get_etf_info (reply : ClientReply) (etf_code : string)
  : option EtfInfo.t :=
  match reply with
  | ClientRaises => None
  | ClientNone => None
  | ClientDict [] => None
  | ClientDict basic_info =>
      Some (EtfInfo.mk etf_code
              (dict_get basic_info "name" (Str ""))
              (dict_get basic_info "management" (Str ""))
              (dict_get basic_info "current_price" (Num 0))
              (dict_get basic_info "pre_close" (Num 0))
              (dict_get basic_info "pct_change" (Num 0))
              (dict_get basic_info "volume" (Num 0))
              (dict_get basic_info "amount" (Num 0))
              (dict_get basic_info "trade_date" (Str ""))
              (dict_get basic_info "found_date" (Str ""))
              (dict_get basic_info "list_date" (Str ""))
              (dict_get basic_info "data_age_days" (Num 0)))
  end.

(** An analysis result without any key. *)
Definition empty_analysis : Analysis.t :=
  Analysis.mk None None None None None None None None None None None None
    None None None None None None None None None None None None.

(** ** Sample inputs *)

(** An analysis result that carries the keys the evaluator reads. *)
Definition analysis_of (avg_amplitude volatility : Q)
    (market_character : string) (liquidity_score avg_volume : Q)
  : Analysis.t :=
  Analysis.mk None None None None None (Some volatility) None
    (Some avg_amplitude) None None None None (Some avg_volume) None
    (Some liquidity_score) None None None (Some market_character) None
    None None None None.

(** The scenario of a fund fit for grid trading: amplitude 2.5, volatility
    20, ranging market, liquidity 0.8, two million shares a day. *)
Definition ranging_fund : Analysis.t :=
  analysis_of 2.5 20 "震荡" 0.8 2000000.

(** The same fund in a strong trend. *)
Definition trending_fund : Analysis.t :=
  analysis_of 2.5 20 "强趋势" 0.8 2000000.

Definition grid_params_of (price_range_ratio : Q) (grid_count : Z)
    (frequency_match_score : Q) : GridParams.t :=
  GridParams.mk (Some price_range_ratio) (Some grid_count)
                (Some frequency_match_score) None.

(** Twenty trading days of a fund that closes at 100 and 102 in turn. *)
Definition sample_series : DataFrame :=
  map (fun day =>
         if Nat.even day
         then Bar.mk (20240101 + Z.of_nat day) 100 1500000 2
         else Bar.mk (20240101 + Z.of_nat day) 102 2500000 3)
      (seq 0 20).

(** * Properties *)

(** ** The comparisons of the code and the order on [Q] *)

Module PyFacts.

Lemma ltb_lt (x y : Q) : Py.ltb x y = true <-> x < y.
Proof.
  unfold Py.ltb. rewrite negb_true_iff. split; intro H.
  - apply Qnot_le_lt. intro Hle. apply Qle_bool_iff in Hle. congruence.
  - destruct (Qle_bool y x) eqn:E; [|reflexivity].
    apply Qle_bool_iff in E. exfalso. apply (Qlt_not_le _ _ H E).
Qed.

Lemma ltb_ge (x y : Q) : Py.ltb x y = false <-> y <= x.
Proof.
  unfold Py.ltb. rewrite negb_false_iff. apply Qle_bool_iff.
Qed.

Lemma leb_le (x y : Q) : Py.leb x y = true <-> x <= y.
Proof. apply Qle_bool_iff. Qed.

Lemma leb_gt (x y : Q) : Py.leb x y = false <-> y < x.
Proof.
  split; intro H.
  - apply Qnot_le_lt. intro Hle. apply leb_le in Hle. congruence.
  - destruct (Py.leb x y) eqn:E; [|reflexivity].
    apply leb_le in E. exfalso. apply (Qlt_not_le _ _ H E).
Qed.

Lemma div_some (x y : Q) : ~ y == 0 -> Py.div x y = Some (x / y).
Proof.
  intro H. unfold Py.div. destruct (Qeq_bool y 0) eqn:E; [|reflexivity].
  apply Qeq_bool_iff in E. contradiction.
Qed.

Lemma div_none (x y : Q) : y == 0 -> Py.div x y = None.
Proof.
  intro H. unfold Py.div. apply Qeq_bool_iff in H. now rewrite H.
Qed.

End PyFacts.

(** Case analysis on a comparison of the code, leaving the order fact in
    the context for [lra]. *)
Ltac split_ltb x y :=
  let E := fresh "E" in
  destruct (Py.ltb x y) eqn:E;
  [apply PyFacts.ltb_lt in E | apply PyFacts.ltb_ge in E].

Ltac split_leb x y :=
  let E := fresh "E" in
  destruct (Py.leb x y) eqn:E;
  [apply PyFacts.leb_le in E | apply PyFacts.leb_gt in E].

(** Splits every comparison under an [if] of the goal. *)
Ltac split_ifs :=
  repeat match goal with
  | |- context [if Py.ltb ?x ?y then _ else _] => split_ltb x y
  | |- context [if Py.leb ?x ?y then _ else _] => split_leb x y
  end.

(** ** The optimal price range *)

Section PriceRange.

Variables avg_amplitude target_triggers : Q.

Local Abbreviation band :=
  (_calculate_optimal_price_range avg_amplitude target_triggers).

Lemma base_range_eq :
  Range.base_range band == avg_amplitude * target_triggers * 1.8.
Proof. simpl. ring. Qed.

Lemma max_range_le_half : Range.max_range band <= 0.50.
Proof.
  simpl. unfold Py.min. split_ifs; lra.
Qed.

Lemma min_range_lt_max_range :
  0 < Range.base_range band -> Range.min_range band < Range.max_range band.
Proof.
  simpl. unfold Py.min, Py.max. intro Hb.
  split_ifs; lra.
Qed.

End PriceRange.

(** C3.  The band is meant to satisfy
    [0.02 <= min_range < max_range <= 0.50]: the code floors [min_range]
    at 0.02 ("最小2%，考虑交易成本") and then makes sure that
    [min_range < max_range] ("确保min_range < max_range").  The second step
    undoes the first without checking it again: for a mean amplitude of
    0.005 at one trigger a day the code returns the band
    [0.00936, 0.0117], whose lower end is under 0.02.  The same step fails
    its own purpose for a mean amplitude of 0, where both ends are 0. *)
Theorem optimal_price_range_loses_floor :
  (let band := _calculate_optimal_price_range 0.005 1.0 in
   Range.min_range band == 0.00936
   /\ Range.max_range band == 0.0117
   /\ ~ 0.02 <= Range.min_range band)
  /\ (let band := _calculate_optimal_price_range 0 1.0 in
      Range.min_range band == 0
      /\ Range.max_range band == 0
      /\ ~ Range.min_range band < Range.max_range band).
Proof.
  vm_compute. repeat split; intro H; try discriminate H; now apply H.
Qed.

(** ** The optimal grid count *)

Lemma grid_base_count_none (target_triggers base_range avg_amplitude : Q) :
  grid_base_count target_triggers base_range avg_amplitude = None
  <-> (target_triggers == 0 \/ avg_amplitude == 0).
Proof.
  unfold grid_base_count, Py.div.
  destruct (Qeq_bool target_triggers 0) eqn:Et.
  - apply Qeq_bool_iff in Et. split; auto.
  - apply Qeq_bool_neq in Et.
    destruct (Qeq_bool (avg_amplitude / target_triggers) 0) eqn:Ea.
    + apply Qeq_bool_iff in Ea. split; [intros _ | reflexivity].
      right. setoid_replace avg_amplitude
        with (avg_amplitude / target_triggers * target_triggers)
        by (field; exact Et).
      rewrite Ea. ring.
    + apply Qeq_bool_neq in Ea. split; [discriminate |].
      intros [H | H]; [contradiction |].
      exfalso. apply Ea. rewrite H. field. exact Et.
Qed.

Lemma grid_count_try_none (frequency_type : string)
    (target_triggers base_range avg_amplitude : Q) :
  grid_count_try frequency_type target_triggers base_range avg_amplitude
  = None
  <-> grid_base_count target_triggers base_range avg_amplitude = None.
Proof.
  unfold grid_count_try.
  destruct (grid_base_count target_triggers base_range avg_amplitude).
  - destruct (frequency_type =? "high")%string;
      [| destruct (frequency_type =? "medium")%string];
      split; discriminate.
  - destruct (frequency_type =? "high")%string;
      [| destruct (frequency_type =? "medium")%string];
      split; reflexivity.
Qed.

Lemma grid_count_try_some (frequency_type : string)
    (target_triggers base_range avg_amplitude : Q) (band : Count.t) :
  grid_count_try frequency_type target_triggers base_range avg_amplitude
  = Some band ->
  (Count.min_count band < Count.max_count band)%Z.
Proof.
  unfold grid_count_try.
  destruct (grid_base_count target_triggers base_range avg_amplitude)
    as [base_count |].
  - destruct (frequency_type =? "high")%string;
      [| destruct (frequency_type =? "medium")%string];
      cbv beta iota zeta;
      match goal with
      | |- context [(?lo >=? ?hi)%Z] =>
          destruct (Z.geb_spec lo hi)
      end;
      intro Hband; injection Hband as <-; simpl; lia.
  - destruct (frequency_type =? "high")%string;
      [| destruct (frequency_type =? "medium")%string]; discriminate.
Qed.

Lemma grid_count_default_ordered (frequency_type : string) :
  (Count.min_count (grid_count_default frequency_type)
   < Count.max_count (grid_count_default frequency_type))%Z.
Proof.
  unfold grid_count_default, default_ranges.
  destruct (frequency_type =? "high")%string;
    [| destruct (frequency_type =? "medium")%string;
       [| destruct (frequency_type =? "low")%string]];
    simpl; lia.
Qed.

(** The band is a proper interval on every path. *)
Lemma optimal_grid_count_ordered (frequency_type : string)
    (target_triggers base_range avg_amplitude : Q) :
  let band := _calculate_optimal_grid_count frequency_type target_triggers
                base_range avg_amplitude in
  (Count.min_count band < Count.max_count band)%Z.
Proof.
  unfold _calculate_optimal_grid_count.
  destruct (grid_count_try frequency_type target_triggers base_range
              avg_amplitude) eqn:E.
  - apply (grid_count_try_some _ _ _ _ _ E).
  - apply grid_count_default_ordered.
Qed.

(** C8.  For each of the three tiers, when the band computation fails, as
    it does for a mean amplitude of 0 where the division is undefined, the
    calculator answers the fixed default band of the tier: 12-25 for high,
    6-15 for medium, 3-8 for low (with the midpoint as base count). *)
Theorem grid_count_failure_falls_back_to_tier_default
    (frequency_type : string)
    (target_triggers base_range avg_amplitude : Q) :
  In frequency_type ["high"; "medium"; "low"]%string ->
  grid_count_try frequency_type target_triggers base_range avg_amplitude
  = None \/ avg_amplitude == 0 ->
  let band := _calculate_optimal_grid_count frequency_type target_triggers
                base_range avg_amplitude in
  (frequency_type = "high"%string
   /\ band = Count.mk 18 12 25 "high")
  \/ (frequency_type = "medium"%string
      /\ band = Count.mk 10 6 15 "medium")
  \/ (frequency_type = "low"%string
      /\ band = Count.mk 5 3 8 "low").
Proof.
  intros Htier Hfail band.
  assert (E : grid_count_try frequency_type target_triggers base_range
                avg_amplitude = None).
  { destruct Hfail as [H | H]; [exact H |].
    apply grid_count_try_none, grid_base_count_none. now right. }
  subst band. unfold _calculate_optimal_grid_count. rewrite E.
  simpl in Htier.
  destruct Htier as [<- | [<- | [<- | []]]].
  - left. split; reflexivity.
  - right; left. split; reflexivity.
  - right; right. split; reflexivity.
Qed.

Lemma grid_count_failure_falls_back_witness :
  In "high"%string ["high"; "medium"; "low"]%string
  /\ 0 == 0
  /\ _calculate_optimal_grid_count "high" 5.5 0 0
     = Count.mk 18 12 25 "high".
Proof.
  assert (Htier : In "high"%string ["high"; "medium"; "low"]%string)
    by (simpl; auto).
  assert (Hzero : 0 == 0) by reflexivity.
  split; [exact Htier |]. split; [exact Hzero |].
  destruct (grid_count_failure_falls_back_to_tier_default
              "high" 5.5 0 0 Htier (or_intror Hzero))
    as [[_ H] | [[H _] | [H _]]].
  - exact H.
  - discriminate H.
  - discriminate H.
Defined.



(** ** The two scorers *)

Lemma score_price_range_in_band (actual_range : Q)
    (optimal_range : Range.t) :
  Range.min_range optimal_range <= actual_range ->
  actual_range <= Range.max_range optimal_range ->
  _score_price_range actual_range optimal_range = 5%Z.
Proof.
  intros Hlo Hhi. unfold _score_price_range.
  apply PyFacts.leb_le in Hlo, Hhi. now rewrite Hlo, Hhi.
Qed.

Lemma score_grid_count_in_band (actual_count : Z)
    (optimal_count : Count.t) :
  (Count.min_count optimal_count <= actual_count)%Z ->
  (actual_count <= Count.max_count optimal_count)%Z ->
  _score_grid_count actual_count optimal_count = 5%Z.
Proof.
  intros Hlo Hhi. unfold _score_grid_count.
  apply Z.leb_le in Hlo, Hhi. now rewrite Hlo, Hhi.
Qed.

Lemma deviation_points_range (deviation : Q) :
  (0 <= deviation_points deviation <= 4)%Z.
Proof.
  unfold deviation_points. split_ifs; lia.
Qed.

Lemma score_price_range_range (actual_range : Q) (optimal_range : Range.t) :
  (0 <= _score_price_range actual_range optimal_range <= 5)%Z.
Proof.
  unfold _score_price_range.
  destruct (_ && _); [lia |].
  destruct (Py.div _ _); [| lia].
  pose proof (deviation_points_range q). lia.
Qed.

Lemma score_grid_count_range (actual_count : Z) (optimal_count : Count.t) :
  (0 <= _score_grid_count actual_count optimal_count <= 5)%Z.
Proof.
  unfold _score_grid_count.
  destruct (_ && _); [lia |].
  destruct (Py.div _ _); [| lia].
  pose proof (deviation_points_range q). lia.
Qed.

Lemma target_triggers_positive (user_frequency : string) :
  0 < Py.get (target_daily_frequencies user_frequency) 2.5.
Proof.
  unfold target_daily_frequencies.
  destruct (user_frequency =? "high")%string;
    [| destruct (user_frequency =? "medium")%string;
       [| destruct (user_frequency =? "low")%string]];
    reflexivity.
Qed.

Lemma price_range_ordered (avg_amplitude target_triggers : Q) :
  0 <= avg_amplitude -> 0 < target_triggers ->
  let band := _calculate_optimal_price_range avg_amplitude target_triggers in
  Range.min_range band <= Range.max_range band.
Proof.
  intros Ha Ht band.
  assert (Hb : 0 <= Range.base_range band).
  { unfold band. rewrite base_range_eq.
    assert (0 <= avg_amplitude * target_triggers)
      by (apply Qmult_le_0_compat; [assumption | apply Qlt_le_weak, Ht]).
    lra. }
  revert Hb. subst band. simpl. unfold Py.min, Py.max.
  split_ifs; intros; lra.
Qed.

(** C4.  For a mean amplitude (a non-negative quantity) and any frequency,
    the ends of the price-range band and of the grid-count band computed by
    the calculator, given back to the scorers as the actual values, score 5
    on both axes. *)
Theorem optimal_bands_score_five (avg_amplitude : Q)
    (user_frequency : string) :
  0 <= avg_amplitude ->
  let target_triggers :=
    Py.get (target_daily_frequencies user_frequency) 2.5 in
  let optimal_range :=
    _calculate_optimal_price_range avg_amplitude target_triggers in
  let optimal_grid_count :=
    _calculate_optimal_grid_count user_frequency target_triggers
      (Range.base_range optimal_range) avg_amplitude in
  _score_price_range (Range.min_range optimal_range) optimal_range = 5%Z
  /\ _score_price_range (Range.max_range optimal_range) optimal_range = 5%Z
  /\ _score_grid_count (Count.min_count optimal_grid_count)
                       optimal_grid_count = 5%Z
  /\ _score_grid_count (Count.max_count optimal_grid_count)
                       optimal_grid_count = 5%Z.
Proof.
  intros Ha target_triggers optimal_range optimal_grid_count.
  pose proof (price_range_ordered avg_amplitude target_triggers Ha
                (target_triggers_positive user_frequency)) as Hr.
  pose proof (optimal_grid_count_ordered user_frequency target_triggers
                (Range.base_range optimal_range) avg_amplitude) as Hc.
  cbv zeta in Hr, Hc. fold optimal_range in Hr.
  fold optimal_grid_count in Hc.
  repeat split.
  - apply score_price_range_in_band; [apply Qle_refl | exact Hr].
  - apply score_price_range_in_band; [exact Hr | apply Qle_refl].
  - apply score_grid_count_in_band; lia.
  - apply score_grid_count_in_band; lia.
Qed.

Lemma optimal_bands_score_five_witness :
  0 <= 2.5
  /\ (let optimal_range := _calculate_optimal_price_range 2.5 5.5 in
      let optimal_grid_count :=
        _calculate_optimal_grid_count "high" 5.5
          (Range.base_range optimal_range) 2.5 in
      _score_price_range (Range.min_range optimal_range) optimal_range = 5%Z
      /\ _score_price_range (Range.max_range optimal_range) optimal_range
         = 5%Z
      /\ _score_grid_count (Count.min_count optimal_grid_count)
                           optimal_grid_count = 5%Z
      /\ _score_grid_count (Count.max_count optimal_grid_count)
                           optimal_grid_count = 5%Z).
Proof.
  assert (H : 0 <= 2.5) by (unfold Qle; simpl; lia).
  split; [exact H |].
  exact (optimal_bands_score_five 2.5 "high" H).
Defined.

(** ** The market-character classifier *)

(** C6.  The classifier answers "震荡" (ranging) exactly for a score above
    0.6, "弱趋势" (weak trend) exactly for a score above 0.3 and at most
    0.6, and "强趋势" (strong trend) exactly for a score of at most 0.3;
    both thresholds are strict and 0.6 is tested first. *)
Theorem classify_market_character_thresholds (oscillation_score : Q)
    (trend_direction : string) :
  let character :=
    _classify_market_character oscillation_score trend_direction in
  (character = "震荡"%string <-> 0.6 < oscillation_score)
  /\ (character = "弱趋势"%string
      <-> 0.3 < oscillation_score /\ oscillation_score <= 0.6)
  /\ (character = "强趋势"%string <-> oscillation_score <= 0.3).
Proof.
  unfold _classify_market_character.
  split_ifs; cbv zeta; repeat split;
    try (intros; lra); try (intros; discriminate);
    try (intros [? ?]; lra).
Qed.

(** ** The verdict *)

(** C1.  On an analysis result without an error the evaluator returns a full
    verdict, and [is_suitable] is true exactly when the score is at least 60
    and there is no disqualifying reason; so a score of 60 or more with a
    reason present is unsuitable. *)
Theorem is_suitable_iff_score_and_no_reason (analysis_result : Analysis.t)
    (grid_params : GridParams.t) (user_frequency : string) :
  Analysis.error analysis_result = None ->
  exists verdict,
    evaluate_adaptability analysis_result grid_params user_frequency
    = Evaluated verdict
    /\ (Verdict.is_suitable verdict = true
        <-> (60 <= Verdict.score verdict)%Z /\ Verdict.reasons verdict = [])
    /\ ((60 <= Verdict.score verdict)%Z ->
        Verdict.reasons verdict <> [] ->
        Verdict.is_suitable verdict = false).
Proof.
  intro Herr. unfold evaluate_adaptability. rewrite Herr.
  eexists. split; [reflexivity |].
  cbn [Verdict.score Verdict.reasons Verdict.is_suitable].
  set (s := assess_grid_params _ _). clearbody s.
  destruct (Z.geb_spec (Tally.score s) 60) as [Hs | Hs];
    destruct (Tally.reasons s) as [| reason reasons]; simpl.
  - split; [split; [intros _; split; [exact Hs | reflexivity] | reflexivity]
           | intros _ H; now elim H].
  - split; [split; [discriminate | intros [_ H]; discriminate H]
           | reflexivity].
  - split; [split; [discriminate | intros [H _]; lia] | intros; lia].
  - split; [split; [discriminate | intros [H _]; lia] | reflexivity].
Qed.

Lemma is_suitable_iff_score_and_no_reason_witness :
  Analysis.error trending_fund = None
  /\ exists verdict,
       evaluate_adaptability trending_fund (grid_params_of 0.45 50 0.9)
                             "high"
       = Evaluated verdict
       /\ (Verdict.is_suitable verdict = true
           <-> (60 <= Verdict.score verdict)%Z
               /\ Verdict.reasons verdict = [])
       /\ ((60 <= Verdict.score verdict)%Z ->
           Verdict.reasons verdict <> [] ->
           Verdict.is_suitable verdict = false).
Proof.
  split; [reflexivity |].
  apply (is_suitable_iff_score_and_no_reason trending_fund
           (grid_params_of 0.45 50 0.9) "high").
  reflexivity.
Defined.

(** A verdict with 85 points and one disqualifying reason: unsuitable. *)
Example high_score_with_reason_is_unsuitable :
  exists verdict,
    evaluate_adaptability trending_fund (grid_params_of 0.45 50 0.9) "high"
    = Evaluated verdict
    /\ Verdict.score verdict = 85%Z
    /\ Verdict.reasons verdict = ["市场趋势性较强，不适合网格交易"%string]
    /\ Verdict.is_suitable verdict = false.
Proof.
  eexists. split; [vm_compute; reflexivity |]. repeat split.
Qed.

(** ** Warnings of the verdict *)

(** The four fund assessments only append fixed texts. *)
Lemma texts_snoc (warnings : list Warning) (message : string) :
  Forall (fun w => exists m, w = Text m) warnings ->
  Forall (fun w => exists m, w = Text m) (warnings ++ [Text message]).
Proof.
  intro H. apply Forall_app. split; [exact H |].
  constructor; [eexists; reflexivity | constructor].
Qed.

Lemma assess_amplitude_texts (analysis_result : Analysis.t) (s : Tally.t) :
  Forall (fun w => exists m, w = Text m) (Tally.warnings s) ->
  Forall (fun w => exists m, w = Text m)
         (Tally.warnings (assess_amplitude analysis_result s)).
Proof.
  intro H. unfold assess_amplitude.
  destruct (Py.leb 2.0 _); [exact H |].
  destruct (Py.leb 1.5 _); [apply texts_snoc |]; exact H.
Qed.

Lemma assess_volatility_texts (analysis_result : Analysis.t) (s : Tally.t) :
  Forall (fun w => exists m, w = Text m) (Tally.warnings s) ->
  Forall (fun w => exists m, w = Text m)
         (Tally.warnings (assess_volatility analysis_result s)).
Proof.
  intro H. unfold assess_volatility.
  destruct (_ && _); [exact H |].
  destruct (Py.ltb _ 15); apply texts_snoc; exact H.
Qed.

Lemma assess_market_texts (analysis_result : Analysis.t) (s : Tally.t) :
  Forall (fun w => exists m, w = Text m) (Tally.warnings s) ->
  Forall (fun w => exists m, w = Text m)
         (Tally.warnings (assess_market analysis_result s)).
Proof.
  intro H. unfold assess_market.
  repeat match goal with
  | |- context [if ?c then _ else _] => destruct c
  end; exact H.
Qed.

Lemma assess_liquidity_texts (analysis_result : Analysis.t) (s : Tally.t) :
  Forall (fun w => exists m, w = Text m) (Tally.warnings s) ->
  Forall (fun w => exists m, w = Text m)
         (Tally.warnings (assess_liquidity analysis_result s)).
Proof.
  intro H. unfold assess_liquidity.
  destruct (_ && _); [exact H |].
  destruct (_ && _); [apply texts_snoc |]; exact H.
Qed.

Lemma fund_warnings_are_texts (analysis_result : Analysis.t) (w : Warning) :
  In w (Tally.warnings
          (assess_liquidity analysis_result
             (assess_market analysis_result
                (assess_volatility analysis_result
                   (assess_amplitude analysis_result Tally.init))))) ->
  exists message, w = Text message.
Proof.
  revert w. apply Forall_forall.
  apply assess_liquidity_texts, assess_market_texts,
    assess_volatility_texts, assess_amplitude_texts.
  constructor.
Qed.

(** The scorer's warnings are never fixed texts. *)
Lemma grid_warnings_are_not_texts (range_score count_score : Z)
    (actual_range : Q) (actual_count : Z) (frequency_match_score : Q)
    (optimal_range : Range.t) (optimal_grid_count : Count.t) (w : Warning) :
  In w (grid_warnings range_score count_score actual_range actual_count
          frequency_match_score optimal_range optimal_grid_count) ->
  forall message, w <> Text message.
Proof.
  unfold grid_warnings.
  repeat match goal with
  | |- context [if ?c then _ else _] => destruct c
  end;
  cbn [app In];
  intro H; repeat destruct H as [H | H]; try contradiction;
    subst w; discriminate.
Qed.

Lemma frequency_bonus_range (frequency_match_score : Q) :
  (0 <= frequency_bonus frequency_match_score <= 2)%Z.
Proof.
  unfold frequency_bonus. split_ifs; lia.
Qed.

(** C10.  On an analysis result without an error, the verdict's warnings
    are those of the four fund assessments followed by the scorer's
    warnings when the grid-parameter total is below 8; when the total is 8,
    9 or 10 (it never exceeds 10) the verdict keeps the fund warnings only,
    and none of the scorer's warnings appears in it. *)
Theorem grid_warnings_copied_iff_total_below_eight
    (analysis_result : Analysis.t) (grid_params : GridParams.t)
    (user_frequency : string) :
  Analysis.error analysis_result = None ->
  let fund_warnings :=
    Tally.warnings
      (assess_liquidity analysis_result
         (assess_market analysis_result
            (assess_volatility analysis_result
               (assess_amplitude analysis_result Tally.init)))) in
  let evaluation :=
    _evaluate_grid_params_with_frequency_matching analysis_result
      grid_params user_frequency in
  exists verdict,
    evaluate_adaptability analysis_result grid_params user_frequency
    = Evaluated verdict
    /\ Verdict.grid_params_details verdict = evaluation
    /\ ((GridEval.total_score evaluation < 8)%Z ->
        Verdict.warnings verdict
        = fund_warnings ++ GridEval.warnings evaluation)
    /\ ((8 <= GridEval.total_score evaluation)%Z ->
        Verdict.warnings verdict = fund_warnings
        /\ forall w, In w (GridEval.warnings evaluation) ->
                     ~ In w (Verdict.warnings verdict))
    /\ (GridEval.total_score evaluation <= 10)%Z.
Proof.
  intros Herr fund_warnings evaluation.
  unfold evaluate_adaptability. rewrite Herr.
  eexists. split; [reflexivity |].
  cbn [Verdict.grid_params_details Verdict.warnings].
  fold evaluation. unfold assess_grid_params.
  cbn [Tally.warnings]. fold fund_warnings.
  split; [reflexivity |].
  destruct (Z.ltb_spec (GridEval.total_score evaluation) 8) as [Hlt | Hge].
  - split; [reflexivity |]. split; [lia |].
    unfold evaluation, _evaluate_grid_params_with_frequency_matching.
    cbn [GridEval.total_score]. lia.
  - split; [lia |]. split.
    + intros _. split; [reflexivity |].
      intros w Hgrid Hfund.
      apply fund_warnings_are_texts in Hfund as [message ->].
      unfold evaluation, _evaluate_grid_params_with_frequency_matching
        in Hgrid.
      cbn [GridEval.warnings] in Hgrid.
      exact (grid_warnings_are_not_texts _ _ _ _ _ _ _ _ Hgrid message
               eq_refl).
    + unfold evaluation, _evaluate_grid_params_with_frequency_matching.
      cbn [GridEval.total_score]. lia.
Qed.

Lemma grid_warnings_copied_iff_total_below_eight_witness :
  Analysis.error ranging_fund = None
  /\ exists verdict,
       evaluate_adaptability ranging_fund (grid_params_of 0.45 50 0.5)
                             "high"
       = Evaluated verdict
       /\ (8 <= GridEval.total_score
                  (Verdict.grid_params_details verdict))%Z
       /\ GridEval.warnings (Verdict.grid_params_details verdict) <> []
       /\ forall w,
            In w (GridEval.warnings (Verdict.grid_params_details verdict))
            -> ~ In w (Verdict.warnings verdict).
Proof.
  split; [reflexivity |].
  destruct (grid_warnings_copied_iff_total_below_eight ranging_fund
              (grid_params_of 0.45 50 0.5) "high" eq_refl)
    as (verdict & Hrun & Hdetails & _ & Hhigh & _).
  exists verdict. split; [exact Hrun |].
  rewrite Hdetails.
  assert (Htotal :
    (8 <= GridEval.total_score
            (_evaluate_grid_params_with_frequency_matching ranging_fund
               (grid_params_of 0.45 50 0.5) "high"))%Z)
    by (vm_compute; discriminate).
  split; [exact Htotal |]. split.
  - vm_compute. discriminate.
  - apply (Hhigh Htotal).
Defined.

(** ** The full-score scenario *)

Lemma assess_amplitude_full (analysis_result : Analysis.t) (s : Tally.t)
    (avg_amplitude : Q) :
  Analysis.avg_amplitude analysis_result = Some avg_amplitude ->
  2.0 <= avg_amplitude ->
  assess_amplitude analysis_result s
  = Tally.mk (Tally.score s + 30) (Tally.reasons s) (Tally.warnings s)
             (Dimensions.set_amplitude 30 (Tally.dimension_scores s)).
Proof.
  intros Hget Hge. unfold assess_amplitude. rewrite Hget. cbn [Py.get].
  apply PyFacts.leb_le in Hge. now rewrite Hge.
Qed.

Lemma assess_volatility_full (analysis_result : Analysis.t) (s : Tally.t)
    (volatility : Q) :
  Analysis.volatility analysis_result = Some volatility ->
  15 <= volatility -> volatility <= 40 ->
  assess_volatility analysis_result s
  = Tally.mk (Tally.score s + 25) (Tally.reasons s) (Tally.warnings s)
             (Dimensions.set_volatility 25 (Tally.dimension_scores s)).
Proof.
  intros Hget Hlo Hhi. unfold assess_volatility. rewrite Hget.
  cbn [Py.get]. apply PyFacts.leb_le in Hlo, Hhi. now rewrite Hlo, Hhi.
Qed.

Lemma assess_market_full (analysis_result : Analysis.t) (s : Tally.t) :
  Analysis.market_character analysis_result = Some "震荡"%string ->
  assess_market analysis_result s
  = Tally.mk (Tally.score s + 20) (Tally.reasons s) (Tally.warnings s)
             (Dimensions.set_market 20 (Tally.dimension_scores s)).
Proof.
  intros Hget. unfold assess_market. rewrite Hget. reflexivity.
Qed.

Lemma assess_liquidity_full (analysis_result : Analysis.t) (s : Tally.t)
    (liquidity_score avg_volume : Q) :
  Analysis.liquidity_score analysis_result = Some liquidity_score ->
  Analysis.avg_volume analysis_result = Some avg_volume ->
  0.7 <= liquidity_score -> 1000000 <= avg_volume ->
  assess_liquidity analysis_result s
  = Tally.mk (Tally.score s + 15) (Tally.reasons s) (Tally.warnings s)
             (Dimensions.set_liquidity 15 (Tally.dimension_scores s)).
Proof.
  intros Hl Hv Hlge Hvge. unfold assess_liquidity. rewrite Hl, Hv.
  cbn [Py.get]. apply PyFacts.leb_le in Hlge, Hvge.
  now rewrite Hlge, Hvge.
Qed.

(** Both axes in band and a frequency match above 0.8: the total is capped
    at 10. *)
Lemma grid_params_full (analysis_result : Analysis.t)
    (grid_params : GridParams.t) (user_frequency : string)
    (avg_amplitude ratio match_score : Q) (count : Z) :
  Analysis.avg_amplitude analysis_result = Some avg_amplitude ->
  GridParams.price_range_ratio grid_params = Some ratio ->
  GridParams.grid_count grid_params = Some count ->
  GridParams.frequency_match_score grid_params = Some match_score ->
  0.8 < match_score ->
  let target_triggers :=
    Py.get (target_daily_frequencies user_frequency) 2.5 in
  let optimal_range :=
    _calculate_optimal_price_range avg_amplitude target_triggers in
  let optimal_grid_count :=
    _calculate_optimal_grid_count user_frequency target_triggers
      (Range.base_range optimal_range) avg_amplitude in
  Range.min_range optimal_range <= ratio <= Range.max_range optimal_range ->
  (Count.min_count optimal_grid_count <= count
   <= Count.max_count optimal_grid_count)%Z ->
  GridEval.total_score
    (_evaluate_grid_params_with_frequency_matching analysis_result
       grid_params user_frequency) = 10%Z.
Proof.
  intros Ha Hr Hc Hm Hmatch target_triggers optimal_range
    optimal_grid_count [Hrlo Hrhi] [Hclo Hchi].
  unfold _evaluate_grid_params_with_frequency_matching.
  cbn [GridEval.total_score]. rewrite Ha, Hr, Hc, Hm. cbn [Py.get].
  fold target_triggers. fold optimal_range. fold optimal_grid_count.
  rewrite (score_price_range_in_band _ _ Hrlo Hrhi).
  rewrite (score_grid_count_in_band _ _ Hclo Hchi).
  unfold frequency_bonus. apply PyFacts.ltb_lt in Hmatch.
  rewrite Hmatch. reflexivity.
Qed.

(** C5.  A fund with mean amplitude 2.5, volatility 20, a ranging market
    ("震荡"), liquidity score 0.8 and an average volume of 2,000,000,
    evaluated with a price range ratio and a grid count inside the optimal
    bands and a frequency match of 0.9, scores 30 + 25 + 20 + 15 + 10 = 100
    and is suitable, whatever the frequency. *)
Theorem ranging_fund_in_band_scores_100
    (analysis_result : Analysis.t) (grid_params : GridParams.t)
    (user_frequency : string)
    (avg_amplitude volatility liquidity_score avg_volume : Q)
    (ratio match_score : Q) (count : Z) :
  Analysis.error analysis_result = None ->
  Analysis.avg_amplitude analysis_result = Some avg_amplitude ->
  avg_amplitude == 2.5 ->
  Analysis.volatility analysis_result = Some volatility ->
  volatility == 20 ->
  Analysis.market_character analysis_result = Some "震荡"%string ->
  Analysis.liquidity_score analysis_result = Some liquidity_score ->
  liquidity_score == 0.8 ->
  Analysis.avg_volume analysis_result = Some avg_volume ->
  avg_volume == 2000000 ->
  GridParams.price_range_ratio grid_params = Some ratio ->
  GridParams.grid_count grid_params = Some count ->
  GridParams.frequency_match_score grid_params = Some match_score ->
  match_score == 0.9 ->
  let target_triggers :=
    Py.get (target_daily_frequencies user_frequency) 2.5 in
  let optimal_range :=
    _calculate_optimal_price_range avg_amplitude target_triggers in
  let optimal_grid_count :=
    _calculate_optimal_grid_count user_frequency target_triggers
      (Range.base_range optimal_range) avg_amplitude in
  Range.min_range optimal_range <= ratio <= Range.max_range optimal_range ->
  (Count.min_count optimal_grid_count <= count
   <= Count.max_count optimal_grid_count)%Z ->
  exists verdict,
    evaluate_adaptability analysis_result grid_params user_frequency
    = Evaluated verdict
    /\ Verdict.dimension_scores verdict = Dimensions.mk 30 25 20 15 10
    /\ Verdict.score verdict = 100%Z
    /\ Verdict.reasons verdict = []
    /\ Verdict.is_suitable verdict = true.
Proof.
  intros Herr Ha Hamp Hv Hvol Hmarket Hl Hliq Hvolume Havol Hr Hc Hm Hmatch
    target_triggers optimal_range optimal_grid_count Hrange Hcount.
  assert (Hgrid := grid_params_full analysis_result grid_params
            user_frequency avg_amplitude ratio match_score count
            Ha Hr Hc Hm ltac:(lra) Hrange Hcount).
  unfold evaluate_adaptability. rewrite Herr.
  eexists. split; [reflexivity |].
  cbn [Verdict.dimension_scores Verdict.score Verdict.reasons
       Verdict.is_suitable].
  unfold assess_grid_params. rewrite Hgrid.
  rewrite (assess_amplitude_full _ _ _ Ha ltac:(lra)).
  rewrite (assess_volatility_full _ _ _ Hv ltac:(lra) ltac:(lra)).
  rewrite (assess_market_full _ _ Hmarket).
  rewrite (assess_liquidity_full _ _ _ _ Hl Hvolume ltac:(lra) ltac:(lra)).
  repeat split.
Qed.

Lemma ranging_fund_in_band_scores_100_witness :
  exists verdict,
    evaluate_adaptability ranging_fund (grid_params_of 0.45 50 0.9) "high"
    = Evaluated verdict
    /\ Verdict.dimension_scores verdict = Dimensions.mk 30 25 20 15 10
    /\ Verdict.score verdict = 100%Z
    /\ Verdict.reasons verdict = []
    /\ Verdict.is_suitable verdict = true.
Proof.
  apply (ranging_fund_in_band_scores_100 ranging_fund
           (grid_params_of 0.45 50 0.9) "high"
           2.5 20 0.8 2000000 0.45 0.9 50);
    try reflexivity.
  - vm_compute. split; discriminate.
  - vm_compute. split; discriminate.
Defined.

(** ** The characteristic analyzer on short series *)

(** C2.  A series of fewer than 20 points, the empty one included, gets the
    insufficient-data record as an ordinary result: it holds the error text
    and [data_points], the length of the series, and none of the
    statistics. *)
Theorem short_series_gets_error_record (lib : Lib.t)
    (historical_data : DataFrame) :
  (length historical_data < 20)%nat ->
  analyze_etf_characteristics lib historical_data
  = Some (Analysis.mk (Some "数据不足，无法进行分析"%string)
            None None None None None None None None None None None None
            None None None None None None None
            (Some (length historical_data)) None None None).
Proof.
  intro Hshort. unfold analyze_etf_characteristics.
  apply Nat.ltb_lt in Hshort. rewrite Hshort, orb_true_r. reflexivity.
Qed.

Lemma short_series_gets_error_record_witness :
  (length [Bar.mk 20240102 1.25 1500000 2.1;
           Bar.mk 20240103 1.26 1400000 1.9] < 20)%nat
  /\ analyze_etf_characteristics sample_lib
       [Bar.mk 20240102 1.25 1500000 2.1;
        Bar.mk 20240103 1.26 1400000 1.9]
     = Some (Analysis.mk (Some "数据不足，无法进行分析"%string)
               None None None None None None None None None None None None
               None None None None None None None
               (Some 2%nat) None None None).
Proof.
  assert (H : (length [Bar.mk 20240102 1.25 1500000 2.1;
                       Bar.mk 20240103 1.26 1400000 1.9] < 20)%nat)
    by (simpl; lia).
  split; [exact H |].
  exact (short_series_gets_error_record sample_lib _ H).
Defined.

(** ** The oscillation and liquidity scores *)




Section UnitInterval.

Variable lib : Lib.t.
Hypothesis sqrt_nonneg : forall x, 0 <= Lib.sqrt lib x.





End UnitInterval.



(** ** Runs of the model *)

(** Twenty points are enough: the analyzer answers a full record. *)
Example sample_series_is_analyzed :
  match analyze_etf_characteristics sample_lib sample_series with
  | Some analysis =>
      (Analysis.error analysis, Analysis.data_points analysis,
       Analysis.trend_direction analysis,
       Analysis.market_character analysis)
      = (None, Some 20%nat, Some "上涨趋势"%string, Some "强趋势"%string)
  | None => False
  end.
Proof.
  vm_compute. reflexivity.
Qed.

(** An amplitude of 0.8 earns no amplitude points and a disqualifying
    reason; with everything else at its best the fund is unsuitable. *)
Example small_amplitude_is_unsuitable :
  exists verdict,
    evaluate_adaptability (analysis_of 0.8 20 "震荡" 0.8 2000000)
                          (grid_params_of 0.45 50 0.9) "high"
    = Evaluated verdict
    /\ Verdict.score verdict = 70%Z
    /\ Verdict.reasons verdict = ["日均振幅过小，难以覆盖交易成本"%string]
    /\ Verdict.is_suitable verdict = false.
Proof.
  eexists. split; [vm_compute; reflexivity |]. repeat split.
Qed.

(** No grid at all against the high-frequency bands of a fund with
    amplitude 0.02: both axes score 0 and both adjustments are advised. *)
Example empty_grid_scores_zero :
  let evaluation :=
    _evaluate_grid_params_with_frequency_matching
      (analysis_of 0.02 20 "震荡" 0.8 2000000) (grid_params_of 0 0 0.9)
      "high" in
  AxisEval.score (GridEval.range_evaluation evaluation) = 0%Z
  /\ AxisEval.score (GridEval.count_evaluation evaluation) = 0%Z
  /\ GridEval.warnings evaluation
     = [RangeTooSmall 0 0.158400 0.257400; CountTooFew 0 49 52].
Proof.
  vm_compute. repeat split.
Qed.

(** A range score of 2 is outweighed by the other points: the total is 9
    and the range warning does not reach the verdict. *)
Example range_warning_dropped_at_nine :
  exists verdict,
    evaluate_adaptability ranging_fund (grid_params_of 0.2 50 0.9) "high"
    = Evaluated verdict
    /\ GridEval.total_score (Verdict.grid_params_details verdict) = 9%Z
    /\ GridEval.warnings (Verdict.grid_params_details verdict)
       = [RangeTooSmall 0.2 0.400 0.50]
    /\ Verdict.warnings verdict = [].
Proof.
  eexists. split; [vm_compute; reflexivity |]. repeat split.
Qed.

(** * Further properties of the code *)

(** ** Short series through the evaluator *)

(** A series of fewer than 20 points, analysed and then evaluated, is
    rejected with the insufficient-data text as the reason, score 0 and
    all dimension scores 0, whatever the grid parameters and frequency. *)
Theorem short_series_is_rejected (lib : Lib.t) (historical_data : DataFrame)
    (grid_params : GridParams.t) (user_frequency : string) :
  (length historical_data < 20)%nat ->
  exists analysis,
    analyze_etf_characteristics lib historical_data = Some analysis
    /\ evaluate_adaptability analysis grid_params user_frequency
       = Rejected false "数据不足，无法进行分析" 0 (Dimensions.mk 0 0 0 0 0).
Proof.
  intro Hshort. unfold analyze_etf_characteristics.
  apply Nat.ltb_lt in Hshort. rewrite Hshort, orb_true_r.
  eexists. split; reflexivity.
Qed.

Lemma short_series_is_rejected_witness :
  (length (@nil Bar.t) < 20)%nat
  /\ exists analysis,
       analyze_etf_characteristics sample_lib [] = Some analysis
       /\ evaluate_adaptability analysis (grid_params_of 0.45 50 0.9) "high"
          = Rejected false "数据不足，无法进行分析" 0
                     (Dimensions.mk 0 0 0 0 0).
Proof.
  assert (H : (length (@nil Bar.t) < 20)%nat) by (simpl; lia).
  split; [exact H |].
  exact (short_series_is_rejected sample_lib [] (grid_params_of 0.45 50 0.9)
           "high" H).
Defined.

(** ** The score and its dimensions *)

Lemma assess_amplitude_points (analysis_result : Analysis.t) (s : Tally.t) :
  exists points,
    (points = 0 \/ points = 20 \/ points = 30)%Z
    /\ Tally.score (assess_amplitude analysis_result s)
       = (Tally.score s + points)%Z
    /\ Tally.dimension_scores (assess_amplitude analysis_result s)
       = Dimensions.set_amplitude points (Tally.dimension_scores s).
Proof.
  unfold assess_amplitude.
  destruct (Py.leb 2.0 _); [exists 30%Z; auto |].
  destruct (Py.leb 1.5 _); [exists 20%Z; auto |].
  exists 0%Z. cbn [Tally.score Tally.dimension_scores].
  repeat split; auto. lia.
Qed.

Lemma assess_volatility_points (analysis_result : Analysis.t) (s : Tally.t) :
  exists points,
    (points = 10 \/ points = 15 \/ points = 25)%Z
    /\ Tally.score (assess_volatility analysis_result s)
       = (Tally.score s + points)%Z
    /\ Tally.dimension_scores (assess_volatility analysis_result s)
       = Dimensions.set_volatility points (Tally.dimension_scores s).
Proof.
  unfold assess_volatility.
  destruct (_ && _); [exists 25%Z; auto |].
  destruct (Py.ltb _ 15); [exists 15%Z; auto | exists 10%Z; auto].
Qed.

Lemma assess_market_points (analysis_result : Analysis.t) (s : Tally.t) :
  exists points,
    (points = 0 \/ points = 5 \/ points = 15 \/ points = 20)%Z
    /\ Tally.score (assess_market analysis_result s)
       = (Tally.score s + points)%Z
    /\ Tally.dimension_scores (assess_market analysis_result s)
       = Dimensions.set_market points (Tally.dimension_scores s).
Proof.
  unfold assess_market.
  destruct (_ =? "震荡")%string; [exists 20%Z; auto 6 |].
  destruct (_ =? "弱趋势")%string; [exists 15%Z; auto 6 |].
  destruct (_ =? "强趋势")%string; [exists 5%Z; auto 6 |].
  exists 0%Z. cbn [Tally.score Tally.dimension_scores].
  repeat split; auto. lia.
Qed.

Lemma assess_liquidity_points (analysis_result : Analysis.t) (s : Tally.t) :
  exists points,
    (points = 0 \/ points = 10 \/ points = 15)%Z
    /\ Tally.score (assess_liquidity analysis_result s)
       = (Tally.score s + points)%Z
    /\ Tally.dimension_scores (assess_liquidity analysis_result s)
       = Dimensions.set_liquidity points (Tally.dimension_scores s).
Proof.
  unfold assess_liquidity.
  destruct (_ && _); [exists 15%Z; auto |].
  destruct (_ && _); [exists 10%Z; auto |].
  exists 0%Z. cbn [Tally.score Tally.dimension_scores].
  repeat split; auto. lia.
Qed.

Lemma grid_total_score_range (analysis_result : Analysis.t)
    (grid_params : GridParams.t) (user_frequency : string) :
  (0 <= GridEval.total_score
          (_evaluate_grid_params_with_frequency_matching analysis_result
             grid_params user_frequency) <= 10)%Z.
Proof.
  unfold _evaluate_grid_params_with_frequency_matching.
  cbn [GridEval.total_score].
  match goal with
  | |- (_ <= Z.min 10 (_score_price_range ?a ?r + _score_grid_count ?n ?c
                       + frequency_bonus ?m) <= _)%Z =>
      pose proof (score_price_range_range a r);
      pose proof (score_grid_count_range n c);
      pose proof (frequency_bonus_range m)
  end.
  lia.
Qed.

(** On an analysis result without an error the score is the sum of the
    five dimension scores; the amplitude score is 0, 20 or 30, the
    volatility score 10, 15 or 25, the market score 0, 5, 15 or 20, the
    liquidity score 0, 10 or 15 and the grid-parameter score the scorer's
    total, between 0 and 10.  So the score lies between 10 and 100. *)
Theorem score_is_sum_of_dimension_scores (analysis_result : Analysis.t)
    (grid_params : GridParams.t) (user_frequency : string) :
  Analysis.error analysis_result = None ->
  exists verdict,
    evaluate_adaptability analysis_result grid_params user_frequency
    = Evaluated verdict
    /\ (let d := Verdict.dimension_scores verdict in
        Verdict.score verdict
        = (Dimensions.amplitude_score d + Dimensions.volatility_score d
           + Dimensions.market_score d + Dimensions.liquidity_score d
           + Dimensions.grid_params_score d)%Z
        /\ In (Dimensions.amplitude_score d) [0; 20; 30]%Z
        /\ In (Dimensions.volatility_score d) [10; 15; 25]%Z
        /\ In (Dimensions.market_score d) [0; 5; 15; 20]%Z
        /\ In (Dimensions.liquidity_score d) [0; 10; 15]%Z
        /\ Dimensions.grid_params_score d
           = GridEval.total_score (Verdict.grid_params_details verdict)
        /\ (0 <= Dimensions.grid_params_score d <= 10)%Z)
    /\ (10 <= Verdict.score verdict <= 100)%Z.
Proof.
  intro Herr. unfold evaluate_adaptability. rewrite Herr.
  eexists. split; [reflexivity |].
  cbn [Verdict.dimension_scores Verdict.score Verdict.grid_params_details].
  unfold assess_grid_params. cbn [Tally.score Tally.dimension_scores].
  pose proof (grid_total_score_range analysis_result grid_params
                user_frequency) as Hg.
  set (total := GridEval.total_score _) in *. clearbody total.
  destruct (assess_amplitude_points analysis_result Tally.init)
    as (pa & Ha & Hsa & Hda).
  set (s1 := assess_amplitude analysis_result Tally.init) in *.
  destruct (assess_volatility_points analysis_result s1)
    as (pv & Hv & Hsv & Hdv).
  set (s2 := assess_volatility analysis_result s1) in *.
  destruct (assess_market_points analysis_result s2)
    as (pm & Hm & Hsm & Hdm).
  set (s3 := assess_market analysis_result s2) in *.
  destruct (assess_liquidity_points analysis_result s3)
    as (pl & Hl & Hsl & Hdl).
  set (s4 := assess_liquidity analysis_result s3) in *.
  clearbody s4 s3 s2.
  rewrite Hsl, Hdl, Hsm, Hdm, Hsv, Hdv, Hsa, Hda.
  cbn. simpl In.
  repeat split; try lia;
    try (destruct Ha as [-> | [-> | ->]]; auto; fail);
    try (destruct Hv as [-> | [-> | ->]]; auto; fail);
    try (destruct Hm as [-> | [-> | [-> | ->]]]; auto 6; fail);
    try (destruct Hl as [-> | [-> | ->]]; auto; fail).
Qed.

Lemma score_is_sum_of_dimension_scores_witness :
  Analysis.error empty_analysis = None
  /\ exists verdict,
       evaluate_adaptability empty_analysis
         (GridParams.mk None None None None) "medium"
       = Evaluated verdict
       /\ Verdict.dimension_scores verdict = Dimensions.mk 0 15 0 0 0
       /\ (10 <= Verdict.score verdict <= 100)%Z.
Proof.
  split; [reflexivity |].
  destruct (score_is_sum_of_dimension_scores empty_analysis
              (GridParams.mk None None None None) "medium" eq_refl)
    as (verdict & Hrun & _ & Hrange).
  exists verdict. split; [exact Hrun |]. split; [| exact Hrange].
  vm_compute in Hrun. injection Hrun as <-. reflexivity.
Defined.

(** ** Disqualifying reasons *)

Lemma assess_amplitude_reasons (analysis_result : Analysis.t) (s : Tally.t) :
  Tally.reasons (assess_amplitude analysis_result s)
  = Tally.reasons s
    ++ (if Py.leb 1.5 (Py.get (Analysis.avg_amplitude analysis_result) 0)
        then [] else ["日均振幅过小，难以覆盖交易成本"%string]).
Proof.
  unfold assess_amplitude.
  split_leb 2.0 (Py.get (Analysis.avg_amplitude analysis_result) 0).
  - assert (H : Py.leb 1.5
                  (Py.get (Analysis.avg_amplitude analysis_result) 0) = true)
      by (apply PyFacts.leb_le; lra).
    rewrite H. cbn [Tally.reasons]. now rewrite app_nil_r.
  - destruct (Py.leb 1.5 _); cbn [Tally.reasons];
      [now rewrite app_nil_r | reflexivity].
Qed.

Lemma assess_volatility_reasons (analysis_result : Analysis.t) (s : Tally.t) :
  Tally.reasons (assess_volatility analysis_result s) = Tally.reasons s.
Proof.
  unfold assess_volatility.
  destruct (_ && _); [reflexivity |].
  destruct (Py.ltb _ 15); reflexivity.
Qed.

Lemma assess_market_reasons (analysis_result : Analysis.t) (s : Tally.t) :
  Tally.reasons (assess_market analysis_result s)
  = Tally.reasons s
    ++ (if (Py.get (Analysis.market_character analysis_result) ""
            =? "强趋势")%string
        then ["市场趋势性较强，不适合网格交易"%string] else []).
Proof.
  unfold assess_market.
  destruct (Py.get (Analysis.market_character analysis_result) ""
            =? "震荡")%string eqn:E1.
  - apply String.eqb_eq in E1. rewrite E1. cbn [Tally.reasons].
    now rewrite app_nil_r.
  - destruct (Py.get (Analysis.market_character analysis_result) ""
              =? "弱趋势")%string eqn:E2.
    + apply String.eqb_eq in E2. rewrite E2. cbn [Tally.reasons].
      now rewrite app_nil_r.
    + destruct (_ =? "强趋势")%string; cbn [Tally.reasons];
        [reflexivity | now rewrite app_nil_r].
Qed.

Lemma assess_liquidity_reasons (analysis_result : Analysis.t) (s : Tally.t) :
  Tally.reasons (assess_liquidity analysis_result s)
  = Tally.reasons s
    ++ (if Py.leb 0.5 (Py.get (Analysis.liquidity_score analysis_result) 0)
           && Py.leb 500000
                     (Py.get (Analysis.avg_volume analysis_result) 0)
        then [] else ["流动性不足，可能存在交易风险"%string]).
Proof.
  unfold assess_liquidity.
  set (l := Py.get (Analysis.liquidity_score analysis_result) 0).
  set (v := Py.get (Analysis.avg_volume analysis_result) 0).
  destruct (Py.leb 0.7 l && Py.leb 1000000 v) eqn:E.
  - apply andb_true_iff in E as [El Ev].
    apply PyFacts.leb_le in El, Ev.
    assert (Hl : Py.leb 0.5 l = true) by (apply PyFacts.leb_le; lra).
    assert (Hv : Py.leb 500000 v = true) by (apply PyFacts.leb_le; lra).
    rewrite Hl, Hv. cbn [Tally.reasons andb]. now rewrite app_nil_r.
  - destruct (Py.leb 0.5 l && Py.leb 500000 v); cbn [Tally.reasons];
      [now rewrite app_nil_r | reflexivity].
Qed.

Lemma assess_grid_params_reasons (evaluation : GridEval.t) (s : Tally.t) :
  Tally.reasons (assess_grid_params evaluation s) = Tally.reasons s.
Proof. reflexivity. Qed.

(** On an analysis result without an error, the verdict has no
    disqualifying reason exactly when the mean amplitude is at least 1.5,
    the market character is not "强趋势" (strong trend), the liquidity
    score is at least 0.5 and the average volume at least 500,000 (absent
    keys count as 0 and as the empty text).  A suitable verdict meets all
    four conditions. *)
Theorem no_reason_iff_fund_conditions (analysis_result : Analysis.t)
    (grid_params : GridParams.t) (user_frequency : string) :
  Analysis.error analysis_result = None ->
  let avg_amplitude := Py.get (Analysis.avg_amplitude analysis_result) 0 in
  let market_character :=
    Py.get (Analysis.market_character analysis_result) ""%string in
  let liquidity_score :=
    Py.get (Analysis.liquidity_score analysis_result) 0 in
  let avg_volume := Py.get (Analysis.avg_volume analysis_result) 0 in
  let conditions :=
    1.5 <= avg_amplitude
    /\ market_character <> "强趋势"%string
    /\ 0.5 <= liquidity_score
    /\ 500000 <= avg_volume in
  exists verdict,
    evaluate_adaptability analysis_result grid_params user_frequency
    = Evaluated verdict
    /\ (Verdict.reasons verdict = [] <-> conditions)
    /\ (Verdict.is_suitable verdict = true -> conditions).
Proof.
  intros Herr avg_amplitude market_character liquidity_score avg_volume
    conditions.
  unfold evaluate_adaptability. rewrite Herr.
  eexists. split; [reflexivity |].
  cbn [Verdict.reasons Verdict.is_suitable].
  rewrite assess_grid_params_reasons, assess_liquidity_reasons,
    assess_market_reasons, assess_volatility_reasons,
    assess_amplitude_reasons.
  cbn [Tally.reasons Tally.init app].
  fold avg_amplitude market_character liquidity_score avg_volume.
  assert (Hiff :
    ((if Py.leb 1.5 avg_amplitude then []
      else ["日均振幅过小，难以覆盖交易成本"%string])
     ++ (if (market_character =? "强趋势")%string
         then ["市场趋势性较强，不适合网格交易"%string] else []))
    ++ (if Py.leb 0.5 liquidity_score && Py.leb 500000 avg_volume
        then [] else ["流动性不足，可能存在交易风险"%string]) = []
    <-> conditions).
  { unfold conditions.
    split_leb 1.5 avg_amplitude;
      (destruct (String.eqb_spec market_character "强趋势") as [Em | Em]);
      split_leb 0.5 liquidity_score; split_leb 500000 avg_volume;
      cbn [app andb]; split;
      try discriminate; try (intros _; repeat split; assumption);
      try reflexivity;
      intros (H1 & H2 & H3 & H4);
      try (exfalso; lra); try contradiction. }
  split; [exact Hiff |].
  intro Hs. apply andb_true_iff in Hs as [_ Hlen].
  apply Hiff. apply Nat.eqb_eq in Hlen.
  now apply length_zero_iff_nil.
Qed.

Lemma no_reason_iff_fund_conditions_witness :
  Analysis.error ranging_fund = None
  /\ exists verdict,
       evaluate_adaptability ranging_fund (grid_params_of 0.45 50 0.9)
                             "high"
       = Evaluated verdict
       /\ Verdict.reasons verdict = [].
Proof.
  split; [reflexivity |].
  destruct (no_reason_iff_fund_conditions ranging_fund
              (grid_params_of 0.45 50 0.9) "high" eq_refl)
    as (verdict & Hrun & Hiff & _).
  exists verdict. split; [exact Hrun |].
  apply Hiff. vm_compute.
  repeat split; try discriminate.
Defined.

(** An analysis result without an error and without the key
    [avg_amplitude] is never suitable: the evaluator reads the amplitude as
    0 and records the amplitude reason first, while the grid-parameter
    evaluation reads it as 0.02 and builds its bands from that value. *)
Theorem missing_amplitude_is_unsuitable (analysis_result : Analysis.t)
    (grid_params : GridParams.t) (user_frequency : string) :
  Analysis.error analysis_result = None ->
  Analysis.avg_amplitude analysis_result = None ->
  exists verdict,
    evaluate_adaptability analysis_result grid_params user_frequency
    = Evaluated verdict
    /\ Verdict.is_suitable verdict = false
    /\ Dimensions.amplitude_score (Verdict.dimension_scores verdict) = 0%Z
    /\ hd_error (Verdict.reasons verdict)
       = Some "日均振幅过小，难以覆盖交易成本"%string
    /\ AxisEval.optimal
         (GridEval.range_evaluation (Verdict.grid_params_details verdict))
       = _calculate_optimal_price_range 0.02
           (Py.get (target_daily_frequencies user_frequency) 2.5).
Proof.
  intros Herr Hamp.
  unfold evaluate_adaptability. rewrite Herr.
  eexists. split; [reflexivity |].
  cbn [Verdict.is_suitable Verdict.dimension_scores Verdict.reasons
       Verdict.grid_params_details].
  rewrite assess_grid_params_reasons, assess_liquidity_reasons,
    assess_market_reasons, assess_volatility_reasons,
    assess_amplitude_reasons.
  rewrite Hamp. cbn [Py.get].
  change (Py.leb 1.5 0) with false.
  cbn [Tally.reasons Tally.init app hd_error length Nat.eqb].
  rewrite <- ?app_assoc. cbn [app hd_error length Nat.eqb].
  rewrite andb_false_r.
  repeat split.
  - unfold assess_grid_params. cbn [Tally.dimension_scores].
    destruct (assess_liquidity_points analysis_result
                (assess_market analysis_result
                   (assess_volatility analysis_result
                      (assess_amplitude analysis_result Tally.init))))
      as (pl & _ & _ & ->).
    destruct (assess_market_points analysis_result
                (assess_volatility analysis_result
                   (assess_amplitude analysis_result Tally.init)))
      as (pm & _ & _ & ->).
    destruct (assess_volatility_points analysis_result
                (assess_amplitude analysis_result Tally.init))
      as (pv & _ & _ & ->).
    unfold assess_amplitude. rewrite Hamp. cbn [Py.get].
    change (Py.leb 2.0 0) with false. change (Py.leb 1.5 0) with false.
    reflexivity.
  - unfold _evaluate_grid_params_with_frequency_matching.
    cbn [GridEval.range_evaluation AxisEval.optimal].
    rewrite Hamp. reflexivity.
Qed.

Lemma missing_amplitude_is_unsuitable_witness :
  Analysis.error empty_analysis = None
  /\ Analysis.avg_amplitude empty_analysis = None
  /\ exists verdict,
       evaluate_adaptability empty_analysis (grid_params_of 0.45 50 0.9)
                             "low"
       = Evaluated verdict
       /\ Verdict.is_suitable verdict = false.
Proof.
  split; [reflexivity |]. split; [reflexivity |].
  destruct (missing_amplitude_is_unsuitable empty_analysis
              (grid_params_of 0.45 50 0.9) "low" eq_refl eq_refl)
    as (verdict & Hrun & Hs & _).
  exists verdict. split; assumption.
Defined.

(** ** The scorers outside the band *)

Lemma deviation_points_zero (deviation : Q) :
  deviation_points deviation = 0%Z <-> 1 <= deviation.
Proof.
  unfold deviation_points.
  split_ifs; split; intro H; try discriminate H; try lra; reflexivity.
Qed.

Lemma div_ge_one (n c : Q) : 0 < c -> (1 <= n / c <-> c <= n).
Proof.
  intro Hc. split; intro H.
  - assert (Hn : n == n / c * c) by (field; lra).
    rewrite Hn. setoid_replace c with (1 * c) at 1 by ring.
    apply Qmult_le_compat_r; [exact H | lra].
  - apply Qle_shift_div_l; [exact Hc | lra].
Qed.

Lemma abs_ge_iff (x c : Q) : c <= Qabs x <-> (c <= x \/ x <= - c).
Proof.
  destruct (Qlt_le_dec x 0) as [Hneg | Hpos].
  - rewrite (Qabs_neg x) by lra. split; [intro; right; lra |].
    intros [H | H]; lra.
  - rewrite (Qabs_pos x) by exact Hpos. split; [intro; left; lra |].
    intros [H | H]; lra.
Qed.

Lemma score_price_range_five_iff (actual_range : Q)
    (optimal_range : Range.t) :
  _score_price_range actual_range optimal_range = 5%Z
  <-> Range.min_range optimal_range <= actual_range
      /\ actual_range <= Range.max_range optimal_range.
Proof.
  split; [| intros [Hlo Hhi]; now apply score_price_range_in_band].
  unfold _score_price_range.
  split_leb (Range.min_range optimal_range) actual_range;
    [split_leb actual_range (Range.max_range optimal_range) |];
    cbn [andb]; auto;
    (destruct (Py.div _ _) as [deviation |]; [| discriminate];
     pose proof (deviation_points_range deviation); lia).
Qed.

Lemma score_grid_count_five_iff (actual_count : Z)
    (optimal_count : Count.t) :
  _score_grid_count actual_count optimal_count = 5%Z
  <-> (Count.min_count optimal_count <= actual_count
       /\ actual_count <= Count.max_count optimal_count)%Z.
Proof.
  split; [| intros [Hlo Hhi]; now apply score_grid_count_in_band].
  unfold _score_grid_count.
  destruct (Z.leb_spec (Count.min_count optimal_count) actual_count);
    [destruct (Z.leb_spec actual_count (Count.max_count optimal_count)) |];
    cbn [andb]; auto;
    (destruct (Py.div _ _) as [deviation |]; [| discriminate];
     pose proof (deviation_points_range deviation); lia).
Qed.

(** Each scorer gives 5 points exactly when the actual value lies in the
    closed band; outside the band the score is at most 4. *)
Theorem score_is_five_exactly_in_band (actual_range : Q)
    (optimal_range : Range.t) (actual_count : Z) (optimal_count : Count.t) :
  (_score_price_range actual_range optimal_range = 5%Z
   <-> Range.min_range optimal_range <= actual_range
       /\ actual_range <= Range.max_range optimal_range)
  /\ (_score_grid_count actual_count optimal_count = 5%Z
      <-> (Count.min_count optimal_count <= actual_count
           /\ actual_count <= Count.max_count optimal_count)%Z)
  /\ (0 <= _score_price_range actual_range optimal_range <= 5)%Z
  /\ (0 <= _score_grid_count actual_count optimal_count <= 5)%Z.
Proof.
  split; [apply score_price_range_five_iff |].
  split; [apply score_grid_count_five_iff |].
  split; [apply score_price_range_range | apply score_grid_count_range].
Qed.

Lemma score_price_range_zero_iff (actual_range : Q)
    (optimal_range : Range.t) :
  0 < Range.min_range optimal_range ->
  Range.min_range optimal_range <= Range.max_range optimal_range ->
  (_score_price_range actual_range optimal_range = 0%Z
   <-> actual_range <= 0
       \/ Range.min_range optimal_range + Range.max_range optimal_range
          <= actual_range).
Proof.
  intros Hpos Hord. unfold _score_price_range.
  set (lo := Range.min_range optimal_range) in *.
  set (hi := Range.max_range optimal_range) in *.
  assert (Hhalf : (lo + hi) / 2 == (lo + hi) * (1 # 2)) by field.
  set (centre := (lo + hi) / 2) in *.
  assert (Hc : 0 < centre) by lra.
  split_leb lo actual_range; [split_leb actual_range hi |]; cbn [andb].
  - split; [discriminate | intros [H | H]; lra].
  - rewrite PyFacts.div_some by lra.
    rewrite deviation_points_zero, (div_ge_one _ _ Hc), abs_ge_iff.
    split; intros [H | H]; lra.
  - rewrite PyFacts.div_some by lra.
    rewrite deviation_points_zero, (div_ge_one _ _ Hc), abs_ge_iff.
    split; intros [H | H]; lra.
Qed.

Lemma score_grid_count_zero_iff (actual_count : Z)
    (optimal_count : Count.t) :
  (0 < Count.min_count optimal_count)%Z ->
  (Count.min_count optimal_count <= Count.max_count optimal_count)%Z ->
  (_score_grid_count actual_count optimal_count = 0%Z
   <-> (actual_count <= 0
        \/ Count.min_count optimal_count + Count.max_count optimal_count
           <= actual_count)%Z).
Proof.
  intros Hpos Hord. unfold _score_grid_count.
  set (lo := Count.min_count optimal_count) in *.
  set (hi := Count.max_count optimal_count) in *.
  assert (Hhalf : inject_Z (lo + hi) / 2 == inject_Z (lo + hi) * (1 # 2))
    by field.
  set (centre := inject_Z (lo + hi) / 2) in *.
  assert (Hsum : 0 < inject_Z (lo + hi))
    by (change 0 with (inject_Z 0); rewrite <- Zlt_Qlt; lia).
  assert (Hc : 0 < centre) by lra.
  assert (Hiff :
    (inject_Z actual_count <= 0
     \/ inject_Z (lo + hi) <= inject_Z actual_count)
    <-> (actual_count <= 0 \/ lo + hi <= actual_count)%Z).
  { change 0 with (inject_Z 0). rewrite <- !Zle_Qle. reflexivity. }
  rewrite <- Hiff.
  assert (Hlo : inject_Z lo <= inject_Z hi) by (rewrite <- Zle_Qle; lia).
  assert (Hlo0 : 0 < inject_Z lo)
    by (change 0 with (inject_Z 0); rewrite <- Zlt_Qlt; lia).
  assert (Hplus : inject_Z (lo + hi) == inject_Z lo + inject_Z hi)
    by (rewrite inject_Z_plus; reflexivity).
  destruct (Z.leb_spec lo actual_count) as [Ha | Ha];
    [destruct (Z.leb_spec actual_count hi) as [Hb | Hb] |]; cbn [andb].
  - rewrite Zle_Qle in Ha, Hb.
    split; [discriminate | intros [H | H]; lra].
  - rewrite Zlt_Qlt in Hb.
    rewrite PyFacts.div_some by lra.
    rewrite deviation_points_zero, (div_ge_one _ _ Hc), abs_ge_iff.
    split; intros [H | H]; lra.
  - rewrite Zlt_Qlt in Ha.
    rewrite PyFacts.div_some by lra.
    rewrite deviation_points_zero, (div_ge_one _ _ Hc), abs_ge_iff.
    split; intros [H | H]; lra.
Qed.

(** ** Bands of the evaluation pipeline *)

Lemma int_nonneg (x : Q) : 0 <= x -> Py.int x = Qfloor x.
Proof.
  destruct x as [n d]. unfold Py.int, Qfloor, Qle. cbn [Qnum Qden].
  intro H. apply Z.quot_div_nonneg; lia.
Qed.

Lemma int_nonpos (x : Q) : x <= 0 -> Py.int x = (- Qfloor (- x))%Z.
Proof.
  destruct x as [n d]. unfold Py.int, Qfloor, Qopp, Qle. cbn [Qnum Qden].
  intro H.
  rewrite <- (Z.opp_involutive n) at 1.
  rewrite Z.quot_opp_l by lia. f_equal.
  apply Z.quot_div_nonneg; lia.
Qed.

(** [int] gives the same integer on equal rationals. *)
Lemma int_compat (x y : Q) : x == y -> Py.int x = Py.int y.
Proof.
  intro H. destruct (Qlt_le_dec x 0) as [Hneg | Hpos].
  - rewrite (int_nonpos x), (int_nonpos y) by lra.
    f_equal. apply Qfloor_comp. lra.
  - rewrite (int_nonneg x), (int_nonneg y) by lra.
    apply Qfloor_comp. exact H.
Qed.

(** In the pipeline the base count only depends on the target:
    [int(1.8 * target_triggers ** 2)]. *)
Lemma pipeline_base_count (avg_amplitude target_triggers : Q) :
  ~ avg_amplitude == 0 -> ~ target_triggers == 0 ->
  grid_base_count target_triggers
    (Range.base_range
       (_calculate_optimal_price_range avg_amplitude target_triggers))
    avg_amplitude
  = Some (Py.int (1.8 * target_triggers * target_triggers)).
Proof.
  intros Ha Ht. unfold grid_base_count.
  rewrite PyFacts.div_some by exact Ht.
  assert (Hper : ~ avg_amplitude / target_triggers == 0).
  { intro H. apply Ha.
    setoid_replace avg_amplitude
      with (avg_amplitude / target_triggers * target_triggers)
      by (field; exact Ht).
    rewrite H. ring. }
  rewrite PyFacts.div_some by exact Hper.
  f_equal. apply int_compat. cbn [Range.base_range
    _calculate_optimal_price_range]. field. split; assumption.
Qed.

(** For a fund with a mean amplitude between 0.001 and 1000 the grid-count
    band of the evaluation does not depend on the fund: it is 49-52
    (base 54) for "high", 8-16 (base 11) for "medium", 3-4 (base 1) for
    "low" and 9-10 (base 11) for any other frequency. *)
Theorem pipeline_grid_count_band_is_constant
    (analysis_result : Analysis.t) (grid_params : GridParams.t)
    (user_frequency : string) :
  0.001 <= Py.get (Analysis.avg_amplitude analysis_result) 0.02 ->
  Py.get (Analysis.avg_amplitude analysis_result) 0.02 <= 1000 ->
  let band :=
    AxisEval.optimal
      (GridEval.count_evaluation
         (_evaluate_grid_params_with_frequency_matching analysis_result
            grid_params user_frequency)) in
  band
  = if (user_frequency =? "high")%string
    then Count.mk 54 49 52 user_frequency
    else if (user_frequency =? "medium")%string
    then Count.mk 11 8 16 user_frequency
    else if (user_frequency =? "low")%string
    then Count.mk 1 3 4 user_frequency
    else Count.mk 11 9 10 user_frequency.
Proof.
  intros Hlo Hhi band. subst band.
  unfold _evaluate_grid_params_with_frequency_matching.
  cbn [GridEval.count_evaluation AxisEval.optimal].
  set (amp := Py.get (Analysis.avg_amplitude analysis_result) 0.02) in *.
  assert (Ha : ~ amp == 0) by (intro H; lra).
  unfold _calculate_optimal_grid_count, grid_count_try,
    target_daily_frequencies.
  destruct (user_frequency =? "high")%string;
    [| destruct (user_frequency =? "medium")%string;
       [| destruct (user_frequency =? "low")%string]];
    cbn [Py.get];
    rewrite (pipeline_base_count amp _ Ha) by discriminate;
    reflexivity.
Qed.

Lemma pipeline_grid_count_band_is_constant_witness :
  0.001 <= Py.get (Analysis.avg_amplitude ranging_fund) 0.02
  /\ Py.get (Analysis.avg_amplitude ranging_fund) 0.02 <= 1000
  /\ AxisEval.optimal
       (GridEval.count_evaluation
          (_evaluate_grid_params_with_frequency_matching ranging_fund
             (grid_params_of 0.45 50 0.9) "high"))
     = Count.mk 54 49 52 "high".
Proof.
  assert (Hlo : 0.001 <= Py.get (Analysis.avg_amplitude ranging_fund) 0.02)
    by discriminate.
  assert (Hhi : Py.get (Analysis.avg_amplitude ranging_fund) 0.02 <= 1000)
    by discriminate.
  split; [exact Hlo |]. split; [exact Hhi |].
  exact (pipeline_grid_count_band_is_constant ranging_fund
           (grid_params_of 0.45 50 0.9) "high" Hlo Hhi).
Defined.

(** For a mean amplitude of at least 0.35 and any frequency the price-range
    band of the evaluation is 0.4 to 0.5: the cap of 0.50 applies and the
    lower end is shrunk to 0.8 times the cap. *)
Theorem pipeline_price_band_is_capped (avg_amplitude : Q)
    (user_frequency : string) :
  0.35 <= avg_amplitude ->
  let band :=
    _calculate_optimal_price_range avg_amplitude
      (Py.get (target_daily_frequencies user_frequency) 2.5) in
  Range.min_range band == 0.4 /\ Range.max_range band == 0.5.
Proof.
  intros Ha band.
  assert (Hb : 0.625 <= Range.base_range band).
  { unfold band, target_daily_frequencies.
    destruct (user_frequency =? "high")%string;
      [| destruct (user_frequency =? "medium")%string;
         [| destruct (user_frequency =? "low")%string]];
      cbn [Py.get Range.base_range _calculate_optimal_price_range]; lra. }
  revert Hb. unfold band. generalize
    (Py.get (target_daily_frequencies user_frequency) 2.5) as t.
  intros t. cbn [Range.base_range Range.min_range Range.max_range
                 _calculate_optimal_price_range].
  set (base := avg_amplitude * (t * 1.2) * 1.5). clearbody base.
  unfold Py.min, Py.max. intro Hb. split_ifs; split; lra.
Qed.

Lemma pipeline_price_band_is_capped_witness :
  0.35 <= 2.5
  /\ (let band := _calculate_optimal_price_range 2.5 5.5 in
      Range.min_range band == 0.4 /\ Range.max_range band == 0.5).
Proof.
  assert (H : 0.35 <= 2.5) by discriminate.
  split; [exact H |].
  exact (pipeline_price_band_is_capped 2.5 "high" H).
Defined.

Lemma grid_count_band_floor (frequency_type : string)
    (target_triggers base_range avg_amplitude : Q) :
  let band := _calculate_optimal_grid_count frequency_type target_triggers
                base_range avg_amplitude in
  (3 <= Count.min_count band)%Z
  /\ (Count.min_count band < Count.max_count band)%Z.
Proof.
  split; [| apply optimal_grid_count_ordered].
  unfold _calculate_optimal_grid_count, grid_count_try, grid_count_default,
    default_ranges.
  destruct (grid_base_count target_triggers base_range avg_amplitude)
    as [base_count |];
    (destruct (frequency_type =? "high")%string;
       [| destruct (frequency_type =? "medium")%string;
          [| destruct (frequency_type =? "low")%string]]);
    cbn; lia.
Qed.

(** On every path the grid-count band starts at 3 or more (12 for "high",
    6 for "medium"), is a proper interval, and is at most 13 wide.  When
    the band is computed (no division fails), the caps 30, 18 and 10 bound
    the upper end only while the lower end stays below them: otherwise the
    upper end is the lower end plus 3. *)
Theorem grid_count_band_shape (frequency_type : string)
    (target_triggers base_range avg_amplitude : Q) :
  let band := _calculate_optimal_grid_count frequency_type target_triggers
                base_range avg_amplitude in
  let floor :=
    if (frequency_type =? "high")%string then 12%Z
    else if (frequency_type =? "medium")%string then 6%Z else 3%Z in
  let cap :=
    if (frequency_type =? "high")%string then 30%Z
    else if (frequency_type =? "medium")%string then 18%Z else 10%Z in
  (floor <= Count.min_count band)%Z
  /\ (Count.min_count band < Count.max_count band)%Z
  /\ (Count.max_count band <= Count.min_count band + 13)%Z
  /\ (grid_base_count target_triggers base_range avg_amplitude <> None ->
      ((Count.min_count band < cap)%Z -> (Count.max_count band <= cap)%Z)
      /\ ((cap <= Count.min_count band)%Z ->
          Count.max_count band = (Count.min_count band + 3)%Z)).
Proof.
  unfold _calculate_optimal_grid_count, grid_count_try, grid_count_default,
    default_ranges.
  destruct (grid_base_count target_triggers base_range avg_amplitude)
    as [base_count |].
  - destruct (frequency_type =? "high")%string;
      [| destruct (frequency_type =? "medium")%string];
      cbv beta iota zeta;
      match goal with
      | |- context [(?lo >=? ?hi)%Z] => destruct (Z.geb_spec lo hi)
      end;
      cbn [Count.min_count Count.max_count];
      repeat split; try lia; intros; lia.
  - destruct (frequency_type =? "high")%string;
      [| destruct (frequency_type =? "medium")%string;
         [| destruct (frequency_type =? "low")%string]];
      cbn; repeat split; try lia; intros; congruence.
Qed.

(** ** Degenerate and missing grid inputs *)

Lemma zero_amplitude_band (avg_amplitude target_triggers : Q) :
  avg_amplitude == 0 ->
  let band := _calculate_optimal_price_range avg_amplitude target_triggers in
  Range.min_range band == 0 /\ Range.max_range band == 0.
Proof.
  intros Ha band. subst band.
  cbn [Range.min_range Range.max_range _calculate_optimal_price_range].
  set (base := avg_amplitude * (target_triggers * 1.2) * 1.5).
  assert (Hb : base == 0) by (unfold base; rewrite Ha; ring).
  clearbody base. unfold Py.min, Py.max. split_ifs; split; lra.
Qed.

Lemma score_against_zero_band (actual_range : Q) (optimal_range : Range.t) :
  Range.min_range optimal_range == 0 ->
  Range.max_range optimal_range == 0 ->
  _score_price_range actual_range optimal_range
  = if Qeq_bool actual_range 0 then 5%Z else 2%Z.
Proof.
  intros Hlo Hhi. unfold _score_price_range.
  set (lo := Range.min_range optimal_range) in *.
  set (hi := Range.max_range optimal_range) in *.
  assert (Hcentre : (lo + hi) / 2 == 0) by (rewrite Hlo, Hhi; reflexivity).
  rewrite (PyFacts.div_none _ _ Hcentre).
  destruct (Qeq_bool actual_range 0) eqn:E.
  - apply Qeq_bool_iff in E.
    assert (H1 : Py.leb lo actual_range = true)
      by (apply PyFacts.leb_le; lra).
    assert (H2 : Py.leb actual_range hi = true)
      by (apply PyFacts.leb_le; lra).
    now rewrite H1, H2.
  - apply Qeq_bool_neq in E.
    split_leb lo actual_range; [split_leb actual_range hi |];
      cbn [andb]; try reflexivity.
    exfalso. apply E. lra.
Qed.

(** For a mean amplitude of 0 the price-range band collapses to the point
    0: a price range ratio of 0 scores 5, and any other ratio scores 2,
    the value of the bare [except], because the division by the centre of
    the band raises. *)
Theorem zero_amplitude_price_score (avg_amplitude target_triggers : Q)
    (actual_range : Q) :
  avg_amplitude == 0 ->
  _score_price_range actual_range
    (_calculate_optimal_price_range avg_amplitude target_triggers)
  = if Qeq_bool actual_range 0 then 5%Z else 2%Z.
Proof.
  intro Ha.
  destruct (zero_amplitude_band avg_amplitude target_triggers Ha)
    as [Hlo Hhi].
  now apply score_against_zero_band.
Qed.

Lemma zero_amplitude_price_score_witness :
  0 == 0
  /\ _score_price_range 0.15 (_calculate_optimal_price_range 0 2.5) = 2%Z
  /\ _score_price_range 0 (_calculate_optimal_price_range 0 2.5) = 5%Z.
Proof.
  assert (H : 0 == 0) by reflexivity.
  split; [exact H |]. split.
  - exact (zero_amplitude_price_score 0 2.5 0.15 H).
  - exact (zero_amplitude_price_score 0 2.5 0 H).
Defined.

Lemma positive_band_lower_end (avg_amplitude target_triggers : Q) :
  0 < avg_amplitude -> 0 < target_triggers ->
  let band := _calculate_optimal_price_range avg_amplitude target_triggers in
  0 < Range.min_range band.
Proof.
  intros Ha Ht band. subst band.
  cbn [Range.min_range _calculate_optimal_price_range].
  set (base := avg_amplitude * (target_triggers * 1.2) * 1.5).
  assert (Hb : 0 < base).
  { unfold base.
    assert (0 < avg_amplitude * target_triggers)
      by (apply Qmult_lt_0_compat; assumption).
    lra. }
  clearbody base. unfold Py.min, Py.max. split_ifs; lra.
Qed.

(** Grid parameters without the keys [price_range_ratio], [grid_count] and
    [frequency_match_score], evaluated for a fund of positive mean
    amplitude: both axes score 0, there is no bonus, the total is 0, and
    the three warnings are issued in order (range too small, too few
    grids, frequency mismatch), each with the value 0. *)
Theorem missing_grid_keys_score_nothing (analysis_result : Analysis.t)
    (grid_params : GridParams.t) (user_frequency : string) :
  0 < Py.get (Analysis.avg_amplitude analysis_result) 0.02 ->
  GridParams.price_range_ratio grid_params = None ->
  GridParams.grid_count grid_params = None ->
  GridParams.frequency_match_score grid_params = None ->
  let evaluation :=
    _evaluate_grid_params_with_frequency_matching analysis_result
      grid_params user_frequency in
  let optimal_range :=
    AxisEval.optimal (GridEval.range_evaluation evaluation) in
  let optimal_count :=
    AxisEval.optimal (GridEval.count_evaluation evaluation) in
  GridEval.total_score evaluation = 0%Z
  /\ AxisEval.score (GridEval.range_evaluation evaluation) = 0%Z
  /\ AxisEval.score (GridEval.count_evaluation evaluation) = 0%Z
  /\ GridEval.warnings evaluation
     = [RangeTooSmall 0 (Range.min_range optimal_range)
                      (Range.max_range optimal_range);
        CountTooFew 0 (Count.min_count optimal_count)
                    (Count.max_count optimal_count);
        FrequencyMismatch 0].
Proof.
  intros Ha Hr Hc Hm evaluation optimal_range optimal_count.
  subst optimal_range optimal_count evaluation.
  unfold _evaluate_grid_params_with_frequency_matching.
  cbn [GridEval.total_score GridEval.range_evaluation
       GridEval.count_evaluation GridEval.warnings AxisEval.optimal
       AxisEval.score].
  set (amp := Py.get (Analysis.avg_amplitude analysis_result) 0.02) in *.
  set (t := Py.get (target_daily_frequencies user_frequency) 2.5).
  assert (Ht : 0 < t) by apply target_triggers_positive.
  set (r := _calculate_optimal_price_range amp t).
  set (c := _calculate_optimal_grid_count user_frequency t
              (Range.base_range r) amp).
  pose proof (positive_band_lower_end amp t Ha Ht) as Hlo.
  pose proof (price_range_ordered amp t (Qlt_le_weak _ _ Ha) Ht) as Hord.
  cbv zeta in Hlo, Hord. fold r in Hlo, Hord.
  destruct (grid_count_band_floor user_frequency t (Range.base_range r) amp)
    as [Hcl Hco]. fold c in Hcl, Hco.
  clearbody c r t amp.
  rewrite Hr, Hc, Hm. cbn [Py.get].
  assert (Hrs : _score_price_range 0 r = 0%Z).
  { apply score_price_range_zero_iff; [exact Hlo | exact Hord |].
    left. apply Qle_refl. }
  assert (Hcs : _score_grid_count 0 c = 0%Z).
  { apply score_grid_count_zero_iff; [lia | lia |]. left. lia. }
  rewrite Hrs, Hcs. unfold grid_warnings.
  assert (Hlt : Py.ltb 0 (Range.min_range r) = true)
    by (apply PyFacts.ltb_lt; exact Hlo).
  rewrite Hlt.
  assert (Hzlt : (0 <? Count.min_count c)%Z = true)
    by (apply Z.ltb_lt; lia).
  rewrite Hzlt.
  repeat split.
Qed.

Lemma missing_grid_keys_score_nothing_witness :
  0 < Py.get (Analysis.avg_amplitude ranging_fund) 0.02
  /\ GridEval.total_score
       (_evaluate_grid_params_with_frequency_matching ranging_fund
          (GridParams.mk None None None None) "medium") = 0%Z.
Proof.
  assert (H : 0 < Py.get (Analysis.avg_amplitude ranging_fund) 0.02)
    by reflexivity.
  split; [exact H |].
  apply (missing_grid_keys_score_nothing ranging_fund
           (GridParams.mk None None None None) "medium" H eq_refl eq_refl
           eq_refl).
Defined.

(** ** The level classifiers *)

(** The volatility level is "低波动" below 10, "中等波动" from 10 to below
    25, "高波动" from 25 to below 40 and "极高波动" from 40 on. *)
Theorem classify_volatility_levels (volatility : Q) :
  let level := _classify_volatility volatility in
  (level = "低波动"%string <-> volatility < 10)
  /\ (level = "中等波动"%string <-> 10 <= volatility /\ volatility < 25)
  /\ (level = "高波动"%string <-> 25 <= volatility /\ volatility < 40)
  /\ (level = "极高波动"%string <-> 40 <= volatility).
Proof.
  unfold _classify_volatility.
  split_ifs; cbv zeta; repeat split;
    try (intros; lra); try (intros; discriminate);
    try (intros [? ?]; lra).
Qed.

(** The amplitude level is "极小振幅" below 1.0, "小振幅" from 1.0 to below
    1.5, "中等振幅" from 1.5 to below 2.5, "大振幅" from 2.5 to below 4.0
    and "极大振幅" from 4.0 on. *)
Theorem classify_amplitude_levels (avg_amplitude : Q) :
  let level := _classify_amplitude avg_amplitude in
  (level = "极小振幅"%string <-> avg_amplitude < 1.0)
  /\ (level = "小振幅"%string
      <-> 1.0 <= avg_amplitude /\ avg_amplitude < 1.5)
  /\ (level = "中等振幅"%string
      <-> 1.5 <= avg_amplitude /\ avg_amplitude < 2.5)
  /\ (level = "大振幅"%string
      <-> 2.5 <= avg_amplitude /\ avg_amplitude < 4.0)
  /\ (level = "极大振幅"%string <-> 4.0 <= avg_amplitude).
Proof.
  unfold _classify_amplitude.
  split_ifs; cbv zeta; repeat split;
    try (intros; lra); try (intros; discriminate);
    try (intros [? ?]; lra).
Qed.

Lemma abs_lt_iff (x c : Q) : Qabs x < c <-> - c < x /\ x < c.
Proof.
  destruct (Qlt_le_dec x 0) as [Hneg | Hpos].
  - rewrite (Qabs_neg x) by lra. split; [intro; split; lra | intros [? ?]; lra].
  - rewrite (Qabs_pos x) by exact Hpos.
    split; [intro; split; lra | intros [? ?]; lra].
Qed.

(** The distribution type is "正态分布" exactly when skewness and kurtosis
    are both strictly inside (-0.5, 0.5); otherwise it is "右偏分布" for a
    skewness above 0.5, "左偏分布" for a skewness below -0.5, and
    "其他分布" for a skewness in [-0.5, 0.5], the two ends included. *)
Theorem classify_distribution_cases (skewness kurtosis : Q) :
  let kind := _classify_distribution skewness kurtosis in
  let bell :=
    (- 0.5 < skewness /\ skewness < 0.5)
    /\ (- 0.5 < kurtosis /\ kurtosis < 0.5) in
  (kind = "正态分布"%string <-> bell)
  /\ (kind = "右偏分布"%string <-> 0.5 < skewness)
  /\ (kind = "左偏分布"%string <-> skewness < - 0.5)
  /\ (kind = "其他分布"%string
      <-> ~ bell /\ - 0.5 <= skewness /\ skewness <= 0.5).
Proof.
  unfold _classify_distribution.
  pose proof (abs_lt_iff skewness 0.5) as Hs.
  pose proof (abs_lt_iff kurtosis 0.5) as Hk.
  split_ltb (Qabs skewness) 0.5; [split_ltb (Qabs kurtosis) 0.5 |];
    cbn [andb]; cbv zeta.
  - apply Hs in E. apply Hk in E0.
    repeat split; try (intros; discriminate); try lra; try tauto;
      try (intros; lra).
  - assert (Hnk : ~ (- 0.5 < kurtosis /\ kurtosis < 0.5))
      by (intro H; apply Hk in H; lra).
    apply Hs in E.
    split_ifs; repeat split;
      try (intros; discriminate); try (intros; lra); try tauto;
      try (intros [? ?]; lra).
  - assert (Hns : ~ (- 0.5 < skewness /\ skewness < 0.5))
      by (intro H; apply Hs in H; lra).
    split_ifs; repeat split;
      try (intros; discriminate); try (intros; lra); try tauto;
      try (intros [? ?]; lra); try (intros [? [? ?]]; lra).
Qed.

(** The trend is "上涨趋势" for a slope above 0.01, "下跌趋势" for a slope
    below -0.01 and "震荡" in between, the two ends included; when the
    line fit raises, the slope is taken as 0 and the trend is "震荡". *)
Theorem trend_direction_cases (lib : Lib.t) (prices : list Q) (slope : Q) :
  (_determine_trend_direction slope = "上涨趋势"%string <-> 0.01 < slope)
  /\ (_determine_trend_direction slope = "下跌趋势"%string
      <-> slope < - 0.01)
  /\ (_determine_trend_direction slope = "震荡"%string
      <-> - 0.01 <= slope /\ slope <= 0.01)
  /\ (Lib.polyfit_slope lib prices = None ->
      _determine_trend_direction (_calculate_trend_slope lib prices)
      = "震荡"%string).
Proof.
  unfold _determine_trend_direction, _calculate_trend_slope.
  split; [| split; [| split]].
  1-3: split_ifs; split; intro H; try discriminate H; try lra;
    try (destruct H; lra); try reflexivity; split; lra.
  intros ->. reflexivity.
Qed.

(** ** What the analyzer returns *)

Lemma short_series_record (lib : Lib.t) (historical_data : DataFrame) :
  (length historical_data < 20)%nat ->
  analyze_etf_characteristics lib historical_data
  = Some (insufficient_data (length historical_data)).
Proof.
  intro Hshort. unfold analyze_etf_characteristics.
  apply Nat.ltb_lt in Hshort. now rewrite Hshort, orb_true_r.
Qed.

(** The shape of a full analysis: the statistics the later lemmas use. *)
Lemma analyze_full (lib : Lib.t) (historical_data : DataFrame)
    (analysis : Analysis.t) :
  (20 <= length historical_data)%nat ->
  analyze_etf_characteristics lib historical_data = Some analysis ->
  exists oscillation_score,
    _calculate_oscillation_score lib (map Bar.close historical_data)
      (map Bar.amplitude historical_data) = Some oscillation_score
    /\ Analysis.error analysis = None
    /\ Analysis.data_points analysis = Some (length historical_data)
    /\ Analysis.oscillation_score analysis = Some oscillation_score
    /\ Analysis.market_character analysis
       = Some (_classify_market_character oscillation_score
                 (_determine_trend_direction
                    (_calculate_trend_slope lib
                       (map Bar.close historical_data))))
    /\ Analysis.avg_amplitude analysis
       = Some (np_mean (map Bar.amplitude historical_data))
    /\ Analysis.amplitude_level analysis
       = Some (_classify_amplitude
                 (np_mean (map Bar.amplitude historical_data)))
    /\ Analysis.avg_volume analysis
       = Some (np_mean (map Bar.vol historical_data)).
Proof.
  intros Hlen. unfold analyze_etf_characteristics.
  assert (E0 : (length historical_data =? 0)%nat = false)
    by (apply Nat.eqb_neq; lia).
  assert (E20 : (length historical_data <? 20)%nat = false)
    by (apply Nat.ltb_ge; lia).
  rewrite E0, E20. cbn [orb].
  destruct (daily_returns _) as [returns |]; [| discriminate].
  destruct (_calculate_oscillation_score _ _ _) as [oscillation |];
    [| discriminate].
  destruct (_calculate_liquidity_score _ _ _) as [liquidity |];
    [| discriminate].
  intro H. injection H as <-. exists oscillation.
  cbn. repeat split.
Qed.

Lemma oscillation_score_at_most_one (lib : Lib.t)
    (prices amplitudes : list Q) (score : Q) :
  _calculate_oscillation_score lib prices amplitudes = Some score ->
  score <= 1.
Proof.
  unfold _calculate_oscillation_score.
  destruct (np_div _ _) as [price_cv |]; [| discriminate].
  destruct (np_div _ _) as [amplitude_cv |]; [| discriminate].
  intro H. injection H as <-. unfold Py.min. split_ifs; lra.
Qed.

Lemma np_sum_positive (xs : list Q) :
  xs <> [] -> Forall (fun x => 0 < x) xs -> 0 < np_sum xs.
Proof.
  intros Hne Hall. induction Hall as [| x xs Hx Hall IH];
    [now elim Hne |].
  cbn [np_sum fold_right]. destruct xs as [| y ys].
  - cbn. lra.
  - assert (0 < np_sum (y :: ys)) by (apply IH; discriminate).
    unfold np_sum in *. lra.
Qed.

Lemma np_mean_positive (xs : list Q) :
  xs <> [] -> Forall (fun x => 0 < x) xs -> 0 < np_mean xs.
Proof.
  intros Hne Hall. unfold np_mean.
  apply Qlt_shift_div_l.
  - destruct xs as [| x xs]; [now elim Hne |].
    unfold Qlt. cbn [Qnum Qden inject_Z]. simpl length. lia.
  - pose proof (np_sum_positive xs Hne Hall). lra.
Qed.

Lemma np_div_defined (x y : Q) : ~ y == 0 -> np_div x y = Some (x / y).
Proof.
  intro H. unfold np_div. destruct (Qeq_bool y 0) eqn:E; [| reflexivity].
  apply Qeq_bool_iff in E. contradiction.
Qed.

Lemma daily_returns_defined (prices : list Q) :
  Forall (fun x => 0 < x) prices ->
  exists returns, daily_returns prices = Some returns.
Proof.
  induction 1 as [| previous rest Hp Hrest IH]; [now exists [] |].
  destruct rest as [| current rest']; [now exists [] |].
  destruct IH as (rs & Hrs).
  exists ((current - previous) / previous :: rs).
  change (daily_returns (previous :: current :: rest'))
    with (match np_div (current - previous) previous with
          | Some r =>
              match daily_returns (current :: rest') with
              | Some rs0 => Some (r :: rs0)
              | None => None
              end
          | None => None
          end).
  rewrite np_div_defined by lra. now rewrite Hrs.
Qed.

(** A series of at least 20 days with positive closes and positive mean
    amplitude and volume is analysed in full. *)
Lemma regular_series_is_analyzed (lib : Lib.t)
    (historical_data : DataFrame) :
  (20 <= length historical_data)%nat ->
  Forall (fun bar => 0 < Bar.close bar) historical_data ->
  0 < np_mean (map Bar.amplitude historical_data) ->
  0 < np_mean (map Bar.vol historical_data) ->
  exists analysis,
    analyze_etf_characteristics lib historical_data = Some analysis.
Proof.
  intros Hlen Hclose Hamp Hvol. unfold analyze_etf_characteristics.
  assert (E0 : (length historical_data =? 0)%nat = false)
    by (apply Nat.eqb_neq; lia).
  assert (E20 : (length historical_data <? 20)%nat = false)
    by (apply Nat.ltb_ge; lia).
  rewrite E0, E20. cbn [orb].
  assert (Hprices : Forall (fun x => 0 < x) (map Bar.close historical_data)).
  { apply Forall_map. exact Hclose. }
  assert (Hne : map Bar.close historical_data <> []).
  { destruct historical_data; [simpl in Hlen; lia | discriminate]. }
  pose proof (np_mean_positive _ Hne Hprices) as Hmean.
  destruct (daily_returns_defined _ Hprices) as (returns & ->).
  unfold _calculate_oscillation_score, _calculate_liquidity_score.
  rewrite !np_div_defined by lra.
  eexists. reflexivity.
Qed.

(** For a series of at least 20 days with positive closes and positive
    mean amplitude and volume the analyzer returns a full record: it
    carries no error, [data_points] is the length of the series, the
    oscillation score is at most 1, the market character is one of "震荡",
    "弱趋势" and "强趋势", chosen from that score, and the amplitude
    level is the level of the mean amplitude. *)
Theorem analysis_record_invariants (lib : Lib.t)
    (historical_data : DataFrame) :
  (20 <= length historical_data)%nat ->
  Forall (fun bar => 0 < Bar.close bar) historical_data ->
  0 < np_mean (map Bar.amplitude historical_data) ->
  0 < np_mean (map Bar.vol historical_data) ->
  exists analysis oscillation_score trend_direction,
    analyze_etf_characteristics lib historical_data = Some analysis
    /\ Analysis.error analysis = None
    /\ Analysis.data_points analysis = Some (length historical_data)
    /\ Analysis.oscillation_score analysis = Some oscillation_score
    /\ oscillation_score <= 1
    /\ Analysis.market_character analysis
       = Some (_classify_market_character oscillation_score
                 trend_direction)
    /\ In (_classify_market_character oscillation_score trend_direction)
          ["震荡"; "弱趋势"; "强趋势"]%string
    /\ Analysis.avg_amplitude analysis
       = Some (np_mean (map Bar.amplitude historical_data))
    /\ Analysis.amplitude_level analysis
       = Some (_classify_amplitude
                 (np_mean (map Bar.amplitude historical_data))).
Proof.
  intros Hlong Hclose Hamp Hvol.
  destruct (regular_series_is_analyzed lib historical_data Hlong Hclose
              Hamp Hvol) as (analysis & Hrun).
  destruct (analyze_full lib historical_data analysis Hlong Hrun)
    as (o & Ho & Herr & Hdp & Hos & Hmc & Havg & Hlevel & _).
  exists analysis, o. eexists.
  split; [exact Hrun |]. split; [exact Herr |]. split; [exact Hdp |].
  split; [exact Hos |].
  split; [exact (oscillation_score_at_most_one _ _ _ _ Ho) |].
  split; [exact Hmc |].
  split; [| split; [exact Havg | exact Hlevel]].
  unfold _classify_market_character.
  destruct (Py.ltb 0.6 o); [| destruct (Py.ltb 0.3 o)]; simpl; auto.
Qed.

Lemma sample_series_is_regular :
  (20 <= length sample_series)%nat
  /\ Forall (fun bar => 0 < Bar.close bar) sample_series
  /\ 0 < np_mean (map Bar.amplitude sample_series)
  /\ 0 < np_mean (map Bar.vol sample_series).
Proof.
  split; [vm_compute; lia |]. split; [| split; reflexivity].
  apply Forall_forall. intros bar Hin. unfold sample_series in Hin.
  apply in_map_iff in Hin as (day & <- & _).
  destruct (Nat.even day); reflexivity.
Defined.

Lemma analysis_record_invariants_witness :
  ((20 <= length sample_series)%nat
   /\ Forall (fun bar => 0 < Bar.close bar) sample_series
   /\ 0 < np_mean (map Bar.amplitude sample_series)
   /\ 0 < np_mean (map Bar.vol sample_series))
  /\ exists analysis oscillation_score,
       analyze_etf_characteristics sample_lib sample_series = Some analysis
       /\ Analysis.error analysis = None
       /\ Analysis.data_points analysis = Some (length sample_series)
       /\ Analysis.oscillation_score analysis = Some oscillation_score
       /\ oscillation_score <= 1.
Proof.
  split; [exact sample_series_is_regular |].
  destruct sample_series_is_regular as (Hlen & Hclose & Hamp & Hvol).
  destruct (analysis_record_invariants sample_lib sample_series
              Hlen Hclose Hamp Hvol)
    as (analysis & o & d & Hrun & Herr & Hdp & Hos & Hle & _).
  exists analysis, o. repeat split; assumption.
Defined.

(** ** The analyzer's record through the evaluator *)

Lemma market_score_kept (analysis_result : Analysis.t)
    (evaluation : GridEval.t) (s : Tally.t) :
  Dimensions.market_score
    (Tally.dimension_scores
       (assess_grid_params evaluation (assess_liquidity analysis_result s)))
  = Dimensions.market_score (Tally.dimension_scores s).
Proof.
  unfold assess_grid_params. cbn [Tally.dimension_scores].
  destruct (assess_liquidity_points analysis_result s)
    as (p & _ & _ & ->).
  reflexivity.
Qed.

Lemma assess_market_of_character (analysis_result : Analysis.t)
    (s : Tally.t) (oscillation_score : Q) (trend_direction : string) :
  Analysis.market_character analysis_result
  = Some (_classify_market_character oscillation_score trend_direction) ->
  Dimensions.market_score
    (Tally.dimension_scores (assess_market analysis_result s))
  = if Py.ltb 0.6 oscillation_score then 20%Z
    else if Py.ltb 0.3 oscillation_score then 15%Z else 5%Z.
Proof.
  intro H. unfold assess_market, _classify_market_character in *.
  rewrite H.
  destruct (Py.ltb 0.6 oscillation_score);
    [| destruct (Py.ltb 0.3 oscillation_score)]; reflexivity.
Qed.

(** For a series of at least 20 days with positive closes and positive
    mean amplitude and volume, the record of the analyzer, given to the
    evaluator, yields a verdict whose market score is 20, 15 or 5
    according to the oscillation score (above 0.6, above 0.3, otherwise):
    the 0 points of an unknown market character do not occur.  With an
    oscillation score of at most 0.3 the fund is not suitable. *)
Theorem analyzed_fund_market_score (lib : Lib.t)
    (historical_data : DataFrame)
    (grid_params : GridParams.t) (user_frequency : string) :
  (20 <= length historical_data)%nat ->
  Forall (fun bar => 0 < Bar.close bar) historical_data ->
  0 < np_mean (map Bar.amplitude historical_data) ->
  0 < np_mean (map Bar.vol historical_data) ->
  exists analysis verdict oscillation_score,
    analyze_etf_characteristics lib historical_data = Some analysis
    /\ evaluate_adaptability analysis grid_params user_frequency
       = Evaluated verdict
    /\ Analysis.oscillation_score analysis = Some oscillation_score
    /\ Dimensions.market_score (Verdict.dimension_scores verdict)
       = (if Py.ltb 0.6 oscillation_score then 20%Z
          else if Py.ltb 0.3 oscillation_score then 15%Z else 5%Z)
    /\ (oscillation_score <= 0.3 -> Verdict.is_suitable verdict = false).
Proof.
  intros Hlong Hclose Hamp Hvol.
  destruct (regular_series_is_analyzed lib historical_data Hlong Hclose
              Hamp Hvol) as (analysis & Hrun).
  destruct (analyze_full lib historical_data analysis Hlong Hrun)
    as (o & _ & Herr & _ & Hos & Hmc & _).
  exists analysis.
  unfold evaluate_adaptability. rewrite Herr.
  eexists. exists o. split; [exact Hrun |].
  split; [reflexivity |]. split; [exact Hos |].
  cbn [Verdict.dimension_scores Verdict.is_suitable]. split.
  - rewrite market_score_kept.
    exact (assess_market_of_character _ _ _ _ Hmc).
  - intro Hlow.
    rewrite assess_grid_params_reasons, assess_liquidity_reasons,
      assess_market_reasons.
    rewrite Hmc. cbn [Py.get]. unfold _classify_market_character.
    assert (H6 : Py.ltb 0.6 o = false) by (apply PyFacts.ltb_ge; lra).
    assert (H3 : Py.ltb 0.3 o = false) by (apply PyFacts.ltb_ge; lra).
    rewrite H6, H3.
    change ("强趋势" =? "强趋势")%string with true.
    apply andb_false_iff. right. apply Nat.eqb_neq.
    rewrite !length_app. cbn [length]. lia.
Qed.

Lemma analyzed_fund_market_score_witness :
  ((20 <= length sample_series)%nat
   /\ Forall (fun bar => 0 < Bar.close bar) sample_series
   /\ 0 < np_mean (map Bar.amplitude sample_series)
   /\ 0 < np_mean (map Bar.vol sample_series))
  /\ exists analysis verdict,
       analyze_etf_characteristics sample_lib sample_series = Some analysis
       /\ evaluate_adaptability analysis (grid_params_of 0.45 50 0.9) "high"
          = Evaluated verdict
       /\ In (Dimensions.market_score (Verdict.dimension_scores verdict))
             [20; 15; 5]%Z.
Proof.
  split; [exact sample_series_is_regular |].
  destruct sample_series_is_regular as (Hlen & Hclose & Hamp & Hvol).
  destruct (analyzed_fund_market_score sample_lib sample_series
              (grid_params_of 0.45 50 0.9) "high" Hlen Hclose Hamp Hvol)
    as (analysis & verdict & o & Hrun & Hev & _ & Hm & _).
  exists analysis, verdict. split; [exact Hrun |].
  split; [exact Hev |]. rewrite Hm.
  destruct (Py.ltb 0.6 o); [| destruct (Py.ltb 0.3 o)]; simpl; auto.
Defined.

(** ** The recommendation text *)

(** The recommendation opens with the headline of the verdict and closes
    with the score.  The reasons are listed exactly for an unsuitable
    verdict that has some; the warnings are listed exactly when there are
    some, as notices for a suitable verdict and as other risks for an
    unsuitable one.  A suitable verdict never shows reasons. *)
Theorem recommendation_lines (is_suitable : bool) (score : Z)
    (reasons : list string) (warnings : list Warning) :
  let lines := _generate_recommendation is_suitable score reasons warnings in
  hd_error lines = Some (Headline is_suitable)
  /\ last lines (Headline is_suitable) = ScoreLine score
  /\ (forall listed,
        In (MainReasons listed) lines
        <-> is_suitable = false /\ listed = reasons /\ reasons <> [])
  /\ (forall listed,
        In (Notices listed) lines
        <-> is_suitable = true /\ listed = warnings /\ warnings <> [])
  /\ (forall listed,
        In (OtherRisks listed) lines
        <-> is_suitable = false /\ listed = warnings /\ warnings <> []).
Proof.
  unfold _generate_recommendation.
  destruct is_suitable, reasons as [| reason reasons],
    warnings as [| warning warnings];
    cbn [nonempty app hd_error last In];
    (split; [reflexivity |]); (split; [reflexivity |]);
    repeat split; intros;
    try match goal with
        | H : _ \/ _ |- _ =>
            repeat destruct H as [H | H];
            try discriminate H; try contradiction;
            try (injection H as <-);
            repeat split; try reflexivity; discriminate
        | H : False |- _ => contradiction
        | H : _ /\ _ /\ _ |- _ =>
            destruct H as (H1 & H2 & H3);
            try discriminate H1; try (now elim H3);
            subst; auto 6
        end.
Qed.

(** ** The frequency match *)

(** The bonus and the mismatch warning exclude each other: a match score
    above 0.8 earns 2 points, one above 0.6 earns 1, and only a score below
    0.6 is warned about; at exactly 0.6 there is neither bonus nor
    warning. *)
Theorem frequency_bonus_excludes_warning (range_score count_score : Z)
    (actual_range : Q) (actual_count : Z) (frequency_match_score : Q)
    (optimal_range : Range.t) (optimal_grid_count : Count.t) :
  let warnings :=
    grid_warnings range_score count_score actual_range actual_count
      frequency_match_score optimal_range optimal_grid_count in
  (In (FrequencyMismatch frequency_match_score) warnings
   <-> frequency_match_score < 0.6)
  /\ (frequency_bonus frequency_match_score = 2%Z
      <-> 0.8 < frequency_match_score)
  /\ (frequency_bonus frequency_match_score = 1%Z
      <-> 0.6 < frequency_match_score /\ frequency_match_score <= 0.8)
  /\ (frequency_bonus frequency_match_score = 0%Z
      <-> frequency_match_score <= 0.6).
Proof.
  cbv zeta. split.
  - unfold grid_warnings. rewrite !in_app_iff.
    split_ltb frequency_match_score 0.6.
    + split; [intros _; exact E | intros _; right; right; left; reflexivity].
    + split; [| intro; lra].
      intros [H | [H | H]]; [| | contradiction];
        repeat match type of H with
        | In _ (if ?c then _ else _) => destruct c
        end;
        cbn [In] in H; repeat destruct H as [H | H];
          try discriminate H; contradiction.
  - unfold frequency_bonus.
    split_ifs; repeat split;
      try (intros; lra); try (intros; discriminate);
      try (intros [? ?]; lra).
Qed.

(** ** Fund information *)

Lemma dict_get_present (d : Dict) (key : string) (v default : Value) :
  NoDup (map fst d) -> In (key, v) d -> dict_get d key default = v.
Proof.
  induction d as [| [k w] rest IH]; intros Hnd Hin; [contradiction |].
  cbn [dict_get]. cbn [map fst] in Hnd. inversion Hnd as [| ? ? Hk Hrest].
  destruct (String.eqb_spec k key) as [-> | Hneq].
  - destruct Hin as [Heq | Hin]; [now injection Heq |].
    exfalso. apply Hk. change key with (fst (key, v)). now apply in_map.
  - destruct Hin as [Heq | Hin]; [injection Heq as -> _; now elim Hneq |].
    now apply IH.
Qed.

Lemma dict_get_absent (d : Dict) (key : string) (default : Value) :
  ~ In key (map fst d) -> dict_get d key default = default.
Proof.
  induction d as [| [k w] rest IH]; intro Hout; [reflexivity |].
  cbn [dict_get]. cbn [map fst In] in Hout.
  destruct (String.eqb_spec k key) as [-> | Hneq].
  - exfalso. apply Hout. now left.
  - apply IH. intro H. apply Hout. now right.
Qed.

(** [get_etf_info] answers nothing exactly when the client raises, answers
    [None] or answers an empty dictionary.  For a non-empty dictionary the
    record carries the requested code, every key present in the
    dictionary is passed on unchanged, and every absent key gets its
    default: the empty text for the five text fields, 0 for the six
    numbers. *)
Theorem etf_info_defaults (reply : ClientReply) (etf_code : string) :
  (get_etf_info reply etf_code = None
   <-> reply = ClientRaises \/ reply = ClientNone \/ reply = ClientDict [])
  /\ (forall basic_info,
        reply = ClientDict basic_info -> basic_info <> [] ->
        NoDup (map fst basic_info) ->
        exists info,
          get_etf_info reply etf_code = Some info
          /\ EtfInfo.code info = etf_code
          /\ Forall
               (fun field =>
                  let '(key, value, default) := field in
                  (forall v, In (key, v) basic_info -> value = v)
                  /\ (~ In key (map fst basic_info) -> value = default))
               [("name", EtfInfo.name info, Str "");
                ("management", EtfInfo.management info, Str "");
                ("current_price", EtfInfo.current_price info, Num 0);
                ("pre_close", EtfInfo.pre_close info, Num 0);
                ("pct_change", EtfInfo.pct_change info, Num 0);
                ("volume", EtfInfo.volume info, Num 0);
                ("amount", EtfInfo.amount info, Num 0);
                ("trade_date", EtfInfo.trade_date info, Str "");
                ("found_date", EtfInfo.found_date info, Str "");
                ("list_date", EtfInfo.list_date info, Str "");
                ("data_age_days", EtfInfo.data_age_days info, Num 0)]%string).
Proof.
  split.
  - destruct reply as [| | [| binding rest]]; cbn [get_etf_info];
      split; auto; try discriminate;
      intros [H | [H | H]]; discriminate H.
  - intros basic_info -> Hne Hnd.
    destruct basic_info as [| binding rest]; [now elim Hne |].
    cbn [get_etf_info]. eexists. split; [reflexivity |].
    split; [reflexivity |].
    cbn [EtfInfo.name EtfInfo.management EtfInfo.current_price
         EtfInfo.pre_close EtfInfo.pct_change EtfInfo.volume EtfInfo.amount
         EtfInfo.trade_date EtfInfo.found_date EtfInfo.list_date
         EtfInfo.data_age_days].
    repeat (apply Forall_cons;
            [split;
             [intros v Hin; now apply dict_get_present
             | intro Hout; now apply dict_get_absent] |]).
    apply Forall_nil.
Qed.

Lemma etf_info_defaults_witness :
  exists info,
    get_etf_info (ClientDict [("name", Str "沪深300ETF")]%string) "510300"
    = Some info
    /\ EtfInfo.code info = "510300"%string
    /\ EtfInfo.name info = Str "沪深300ETF"
    /\ EtfInfo.volume info = Num 0.
Proof.
  assert (Hnd : NoDup (map fst [("name", Str "沪深300ETF")]%string))
    by (repeat constructor; intros []).
  assert (Hne : [("name"%string, Str "沪深300ETF")] <> [])
    by discriminate.
  destruct (etf_info_defaults
              (ClientDict [("name", Str "沪深300ETF")]%string) "510300")
    as [_ H].
  destruct (H _ eq_refl Hne Hnd) as (info & Hrun & Hcode & Hfields).
  exists info. split; [exact Hrun |]. split; [exact Hcode |].
  pose proof (Forall_inv Hfields) as [Hname _].
  pose proof (Forall_inv
                (Forall_inv_tail
                   (Forall_inv_tail
                      (Forall_inv_tail
                         (Forall_inv_tail (Forall_inv_tail Hfields))))))
    as [_ Hvolume].
  split.
  - apply Hname. now left.
  - apply Hvolume. cbn. intros [H0 | []]. discriminate H0.
Defined.

(** ** What the grid parameters can change *)

Lemma fund_tally_reasons (analysis_result : Analysis.t) :
  Tally.reasons
    (assess_liquidity analysis_result
       (assess_market analysis_result
          (assess_volatility analysis_result
             (assess_amplitude analysis_result Tally.init))))
  = ((if Py.leb 1.5 (Py.get (Analysis.avg_amplitude analysis_result) 0)
      then [] else ["日均振幅过小，难以覆盖交易成本"%string])
     ++ (if (Py.get (Analysis.market_character analysis_result) ""
             =? "强趋势")%string
         then ["市场趋势性较强，不适合网格交易"%string] else []))
    ++ (if Py.leb 0.5 (Py.get (Analysis.liquidity_score analysis_result) 0)
           && Py.leb 500000
                     (Py.get (Analysis.avg_volume analysis_result) 0)
        then [] else ["流动性不足，可能存在交易风险"%string]).
Proof.
  rewrite assess_liquidity_reasons, assess_market_reasons,
    assess_volatility_reasons, assess_amplitude_reasons.
  reflexivity.
Qed.

(** For one analysis result without an error, two evaluations with
    different grid parameters and frequencies agree on the reasons and on
    the amplitude, volatility, market and liquidity scores; their scores
    differ by at most 10. *)
Theorem grid_params_move_at_most_ten_points (analysis_result : Analysis.t)
    (grid_params grid_params' : GridParams.t)
    (user_frequency user_frequency' : string) :
  Analysis.error analysis_result = None ->
  exists verdict verdict',
    evaluate_adaptability analysis_result grid_params user_frequency
    = Evaluated verdict
    /\ evaluate_adaptability analysis_result grid_params' user_frequency'
       = Evaluated verdict'
    /\ Verdict.reasons verdict = Verdict.reasons verdict'
    /\ (let d := Verdict.dimension_scores verdict in
        let d' := Verdict.dimension_scores verdict' in
        Dimensions.amplitude_score d = Dimensions.amplitude_score d'
        /\ Dimensions.volatility_score d = Dimensions.volatility_score d'
        /\ Dimensions.market_score d = Dimensions.market_score d'
        /\ Dimensions.liquidity_score d = Dimensions.liquidity_score d')
    /\ (Z.abs (Verdict.score verdict - Verdict.score verdict') <= 10)%Z.
Proof.
  intro Herr. unfold evaluate_adaptability. rewrite Herr.
  eexists. eexists. split; [reflexivity |]. split; [reflexivity |].
  cbn [Verdict.reasons Verdict.dimension_scores Verdict.score].
  pose proof (grid_total_score_range analysis_result grid_params
                user_frequency) as Hg.
  pose proof (grid_total_score_range analysis_result grid_params'
                user_frequency') as Hg'.
  unfold assess_grid_params.
  cbn [Tally.reasons Tally.dimension_scores Tally.score].
  repeat split. lia.
Qed.

Lemma grid_params_move_at_most_ten_points_witness :
  Analysis.error ranging_fund = None
  /\ exists verdict verdict',
       evaluate_adaptability ranging_fund (grid_params_of 0.45 50 0.9)
                             "high" = Evaluated verdict
       /\ evaluate_adaptability ranging_fund
            (GridParams.mk None None None None) "low" = Evaluated verdict'
       /\ (Z.abs (Verdict.score verdict - Verdict.score verdict') <= 10)%Z.
Proof.
  split; [reflexivity |].
  destruct (grid_params_move_at_most_ten_points ranging_fund
              (grid_params_of 0.45 50 0.9)
              (GridParams.mk None None None None) "high" "low" eq_refl)
    as (verdict & verdict' & H1 & H2 & _ & _ & H3).
  exists verdict, verdict'. repeat split; assumption.
Defined.

Lemma amplitude_points_at_least (analysis_result : Analysis.t)
    (s : Tally.t) :
  1.5 <= Py.get (Analysis.avg_amplitude analysis_result) 0 ->
  (Tally.score s + 20
   <= Tally.score (assess_amplitude analysis_result s))%Z.
Proof.
  intro H. unfold assess_amplitude.
  destruct (Py.leb 2.0 _); [cbn; lia |].
  apply PyFacts.leb_le in H. rewrite H. cbn. lia.
Qed.

Lemma volatility_points_at_least (analysis_result : Analysis.t)
    (s : Tally.t) :
  (Tally.score s + 10
   <= Tally.score (assess_volatility analysis_result s))%Z
  /\ (15 <= Py.get (Analysis.volatility analysis_result) 0 ->
      Py.get (Analysis.volatility analysis_result) 0 <= 40 ->
      Tally.score (assess_volatility analysis_result s)
      = (Tally.score s + 25)%Z).
Proof.
  unfold assess_volatility. split.
  - destruct (_ && _); [cbn; lia |].
    destruct (Py.ltb _ 15); cbn; lia.
  - intros Hlo Hhi. apply PyFacts.leb_le in Hlo, Hhi.
    now rewrite Hlo, Hhi.
Qed.

Lemma market_points_at_least (analysis_result : Analysis.t) (s : Tally.t) :
  Py.get (Analysis.market_character analysis_result) ""%string = "震荡"%string
  \/ Py.get (Analysis.market_character analysis_result) ""%string
     = "弱趋势"%string ->
  (Tally.score s + 15 <= Tally.score (assess_market analysis_result s))%Z.
Proof.
  unfold assess_market. intros [-> | ->]; cbn; lia.
Qed.

Lemma liquidity_points_at_least (analysis_result : Analysis.t)
    (s : Tally.t) :
  0.5 <= Py.get (Analysis.liquidity_score analysis_result) 0 ->
  500000 <= Py.get (Analysis.avg_volume analysis_result) 0 ->
  (Tally.score s + 10
   <= Tally.score (assess_liquidity analysis_result s))%Z.
Proof.
  intros Hl Hv. unfold assess_liquidity.
  destruct (_ && _); [cbn; lia |].
  apply PyFacts.leb_le in Hl, Hv. rewrite Hl, Hv. cbn. lia.
Qed.

(** A fund with a mean amplitude of at least 1.5, a volatility between 15
    and 40, a market character "震荡" or "弱趋势", a liquidity score of at
    least 0.5 and an average volume of at least 500,000 is suitable
    whatever the grid parameters and the frequency: it has no reason
    against it and at least 70 points before the grid parameters are
    scored. *)
Theorem sound_fund_is_suitable_with_any_grid (analysis_result : Analysis.t)
    (grid_params : GridParams.t) (user_frequency : string) :
  Analysis.error analysis_result = None ->
  1.5 <= Py.get (Analysis.avg_amplitude analysis_result) 0 ->
  15 <= Py.get (Analysis.volatility analysis_result) 0 ->
  Py.get (Analysis.volatility analysis_result) 0 <= 40 ->
  Py.get (Analysis.market_character analysis_result) ""%string = "震荡"%string
  \/ Py.get (Analysis.market_character analysis_result) ""%string
     = "弱趋势"%string ->
  0.5 <= Py.get (Analysis.liquidity_score analysis_result) 0 ->
  500000 <= Py.get (Analysis.avg_volume analysis_result) 0 ->
  exists verdict,
    evaluate_adaptability analysis_result grid_params user_frequency
    = Evaluated verdict
    /\ Verdict.is_suitable verdict = true
    /\ (70 <= Verdict.score verdict)%Z.
Proof.
  intros Herr Ha Hvlo Hvhi Hm Hl Hv.
  unfold evaluate_adaptability. rewrite Herr.
  eexists. split; [reflexivity |].
  cbn [Verdict.is_suitable Verdict.score].
  rewrite assess_grid_params_reasons, fund_tally_reasons.
  assert (E1 : Py.leb 1.5
                 (Py.get (Analysis.avg_amplitude analysis_result) 0) = true)
    by (now apply PyFacts.leb_le).
  assert (E2 : (Py.get (Analysis.market_character analysis_result) ""%string
                =? "强趋势")%string = false)
    by (destruct Hm as [-> | ->]; reflexivity).
  assert (E3 : Py.leb 0.5
                 (Py.get (Analysis.liquidity_score analysis_result) 0)
               = true) by (now apply PyFacts.leb_le).
  assert (E4 : Py.leb 500000
                 (Py.get (Analysis.avg_volume analysis_result) 0) = true)
    by (now apply PyFacts.leb_le).
  rewrite E1, E2, E3, E4. cbn [app andb length Nat.eqb].
  rewrite andb_true_r.
  pose proof (grid_total_score_range analysis_result grid_params
                user_frequency) as Hg.
  unfold assess_grid_params. cbn [Tally.score].
  pose proof (amplitude_points_at_least analysis_result Tally.init Ha)
    as H1.
  destruct (volatility_points_at_least analysis_result
              (assess_amplitude analysis_result Tally.init)) as [_ H2].
  specialize (H2 Hvlo Hvhi).
  pose proof (market_points_at_least analysis_result
                (assess_volatility analysis_result
                   (assess_amplitude analysis_result Tally.init)) Hm)
    as H3.
  pose proof (liquidity_points_at_least analysis_result
                (assess_market analysis_result
                   (assess_volatility analysis_result
                      (assess_amplitude analysis_result Tally.init)))
                Hl Hv) as H4.
  cbn [Tally.score Tally.init] in H1.
  split; [apply Z.geb_le |]; lia.
Qed.

Lemma sound_fund_is_suitable_with_any_grid_witness :
  exists verdict,
    evaluate_adaptability (analysis_of 1.5 30 "弱趋势" 0.5 500000)
      (GridParams.mk None None None None) "low"
    = Evaluated verdict
    /\ Verdict.is_suitable verdict = true
    /\ (70 <= Verdict.score verdict)%Z.
Proof.
  apply (sound_fund_is_suitable_with_any_grid
           (analysis_of 1.5 30 "弱趋势" 0.5 500000)
           (GridParams.mk None None None None) "low");
    try reflexivity; try discriminate.
  right. reflexivity.
Defined.
